(** * Mini load balancer for prefill and decode servers

    A shallow embedding of [sglang/srt/disaggregation/mini_lb.py] and the
    properties of its pair selection, bootstrap injection, dual dispatch and
    administrative fan-out.

    The Python code is asynchronous: a handler runs synchronously up to an
    [await], is suspended while the network answers, and is resumed with the
    answers.  A handler is therefore embedded as a resumption ([coro]): either
    it is finished, or it is suspended on a batch of requests with the state
    it had reached at that point and a continuation.

    The routes that only probe or collect ([/health], [/health_generate],
    [/flush_cache], [/get_server_info], [/get_model_info]) and the command
    line are not part of the development. *)

From Stdlib Require Import ZArith List Bool Lia Ascii String.
From stdpp Require Import base strings gmap list.
Import ListNotations.

Set Warnings "-register-all".

Local Open Scope string_scope.
Local Open Scope Z_scope.

(** ** Python values *)

(** The values a parsed JSON document is made of.  A float is kept as a
    decimal mantissa and exponent and never computed with: the code only ever
    asks whether a value is an [int] or a [str]. *)
Inductive pyval : Type :=
| PNone
| PBool (b : bool)
| PInt (z : Z)
| PFloat (mantissa exponent : Z)
| PStr (s : string)
| PList (l : list pyval)
| PDict (l : list (string * pyval)).

(** A request body is a Python [dict] with string keys. *)
Abbreviation dict := (gmap string pyval).

Inductive exn : Type :=
| IndexError
| TypeError
| KeyError
| AssertionError
| ValueError
| ZeroDivisionError
| ClientError (msg : string)
| ContentTypeError
| HTTPException (status_code : Z) (detail : detail)
with detail : Type :=
| PrefillServerErrorStatus (status : Z)
| StrOf (e : exn).

Inductive result (A : Type) : Type :=
| Ok (a : A)
| Raise (e : exn).
Arguments Ok {A} a.
Arguments Raise {A} e.

Definition result_bind {A B} (r : result A) (f : A -> result B) : result B :=
  match r with
  | Ok a => f a
  | Raise e => Raise e
  end.

(** [isinstance(v, str)] *)
Definition isinstance_str (v : pyval) : bool :=
  match v with
  | PStr _ => true
  | _ => false
  end.

(** [isinstance(v, int)]; [bool] is a subclass of [int]. *)
Definition isinstance_int (v : pyval) : bool :=
  match v with
  | PInt _ | PBool _ => true
  | _ => false
  end.

(** The keys of a nested object, each counted once. *)
Fixpoint distinct_keys (l : list (string * pyval)) : list string :=
  match l with
  | [] => []
  | (k, _) :: l' =>
      if bool_decide (k ∈ distinct_keys l') then distinct_keys l'
      else k :: distinct_keys l'
  end.

(** [len(v)]: defined on strings, lists and dicts, [TypeError] otherwise.
    A string is measured in characters of the model, which are bytes. *)
Definition py_len (v : pyval) : result nat :=
  match v with
  | PStr s => Ok (String.length s)
  | PList l => Ok (length l)
  | PDict l => Ok (length (distinct_keys l))
  | PNone | PBool _ | PInt _ | PFloat _ _ => Raise TypeError
  end.

(** [v[0]].  A dict parsed from JSON has only string keys, so the integer
    key [0] is never found. *)
Definition py_getitem0 (v : pyval) : result pyval :=
  match v with
  | PList (x :: _) => Ok x
  | PList [] => Raise IndexError
  | PStr (String c _) => Ok (PStr (String c EmptyString))
  | PStr EmptyString => Raise IndexError
  | PDict _ => Raise KeyError
  | PNone | PBool _ | PInt _ | PFloat _ _ => Raise TypeError
  end.

(** Truth value of a Python object, as tested by [if]. *)
Definition truthy (v : pyval) : bool :=
  match v with
  | PNone => false
  | PBool b => b
  | PInt z => negb (z =? 0)
  | PFloat m _ => negb (m =? 0)
  | PStr s => negb (String.eqb s EmptyString)
  | PList l => negb (Nat.eqb (length l) 0)
  | PDict l => negb (Nat.eqb (length l) 0)
  end.

(** [d.get(key)]: [None] when the key is absent. *)
Definition dict_get (d : dict) (key : string) : pyval :=
  match d !! key with
  | Some v => v
  | None => PNone
  end.

(** [d.get(key, default)] *)
Definition dict_get_default (d : dict) (key : string) (default : pyval) : pyval :=
  match d !! key with
  | Some v => v
  | None => default
  end.

(** [d.update({k1: v1, ...})], the pairs applied from left to right. *)
Fixpoint dict_update (d : dict) (kvs : list (string * pyval)) : dict :=
  match kvs with
  | [] => d
  | (k, v) :: kvs' => dict_update (<[k := v]> d) kvs'
  end.

(** ** Batch size of a request *)

Definition _get_request_batch_size (request : dict) : result (option nat) :=
  match dict_get request "text" with
  | PNone =>
      match dict_get request "input_ids" with
      | PNone => Ok None
      | input_ids =>
          result_bind (py_getitem0 input_ids) (fun first =>
          if isinstance_int first then Ok None
          else result_bind (py_len input_ids) (fun n => Ok (Some n)))
      end
  | text =>
      if isinstance_str text then Ok None
      else result_bind (py_len text) (fun n => Ok (Some n))
  end.

(** [l[i]] for a Python list: a negative index counts from the end, an index
    out of range raises [IndexError]. *)
Definition py_index {A} (l : list A) (i : Z) : result A :=
  let n := Z.of_nat (length l) in
  let j := if i <? 0 then i + n else i in
  if (0 <=? j) && (j <? n) then
    match l !! Z.to_nat j with
    | Some x => Ok x
    | None => Raise IndexError
    end
  else Raise IndexError.

(** [a % b] on Python integers: the result has the sign of [b], as [Z.modulo]. *)
Definition py_mod (a b : Z) : result Z :=
  if b =? 0 then Raise ZeroDivisionError else Ok (a mod b).

(** [endpoint[0] != "/"], as asserted by [generate] and [generate_stream]. *)
Definition assert_endpoint (endpoint : string) : result unit :=
  match endpoint with
  | EmptyString => Raise IndexError
  | String c _ => if Ascii.eqb c "/"%char then Raise AssertionError else Ok tt
  end.

(** ** The balancer and the world it runs in *)

Record PrefillConfig : Type := {
  url : string;
  bootstrap_port : Z;
}.

Record MiniLoadBalancer : Type := {
  prefill_configs : list PrefillConfig;
  prefill_servers : list string;
  decode_servers : list string;
  profiling : bool;
  recording : bool;
  round_robin_counter : Z;
}.

(** [MiniLoadBalancer.__init__] (the profiler directory it creates is left
    out). *)
Definition init (configs : list PrefillConfig) (decode : list string)
  : MiniLoadBalancer :=
  {| prefill_configs := configs;
     prefill_servers := map url configs;
     decode_servers := decode;
     profiling := false;
     recording := false;
     round_robin_counter := 0 |}.

Definition set_profiling (b : bool) (lb : MiniLoadBalancer) : MiniLoadBalancer :=
  {| prefill_configs := prefill_configs lb;
     prefill_servers := prefill_servers lb;
     decode_servers := decode_servers lb;
     profiling := b;
     recording := recording lb;
     round_robin_counter := round_robin_counter lb |}.

Definition set_recording (b : bool) (lb : MiniLoadBalancer) : MiniLoadBalancer :=
  {| prefill_configs := prefill_configs lb;
     prefill_servers := prefill_servers lb;
     decode_servers := decode_servers lb;
     profiling := profiling lb;
     recording := b;
     round_robin_counter := round_robin_counter lb |}.

Definition set_round_robin_counter (c : Z) (lb : MiniLoadBalancer)
  : MiniLoadBalancer :=
  {| prefill_configs := prefill_configs lb;
     prefill_servers := prefill_servers lb;
     decode_servers := decode_servers lb;
     profiling := profiling lb;
     recording := recording lb;
     round_robin_counter := c |}.

(** A reference to a [dict] object: its position in the heap. *)
Definition ref : Type := nat.

(** The process state: the global [load_balancer] (after [run] has set it),
    the [dict] objects alive in memory, and how many raw draws the [random]
    module has handed out. *)
Record state : Type := {
  load_balancer : MiniLoadBalancer;
  heap : list dict;
  rng_pos : nat;
}.

Definition with_load_balancer (lb : MiniLoadBalancer) (s : state) : state :=
  {| load_balancer := lb; heap := heap s; rng_pos := rng_pos s |}.

Definition with_heap (h : list dict) (s : state) : state :=
  {| load_balancer := load_balancer s; heap := h; rng_pos := rng_pos s |}.

Definition with_rng_pos (n : nat) (s : state) : state :=
  {| load_balancer := load_balancer s; heap := heap s; rng_pos := n |}.

(** ** The network *)

Inductive request : Type :=
| POST (target : string) (json : option dict)
| GET (target : string)
| RELEASE (target : string).

(** What a backend answered: the status line, the body as JSON when it
    parses as such, and the body as the chunks a stream delivers, which may
    end in a fault. *)
Record response : Type := {
  status : Z;
  json_body : option pyval;
  content : list string;
  content_fault : option string;
}.

Inductive outcome : Type :=
| Responded (r : response)
| Failed (msg : string).

(** [await response.json()] *)
Definition response_json (r : response) : result pyval :=
  match json_body r with
  | Some v => Ok v
  | None => Raise ContentTypeError
  end.

(** ** Coroutines *)

(** A coroutine is finished in some state with a value or an exception, or
    suspended at an [await] on a batch of requests.  A suspended coroutine
    shows the state it had reached; when the answers arrive it is resumed in
    the state of that moment. *)
Inductive coro (A : Type) : Type :=
| Done (s : state) (r : result A)
| Await (s : state) (reqs : list request) (k : list outcome -> state -> coro A).
Arguments Done {A} s r.
Arguments Await {A} s reqs k.

Definition M (A : Type) : Type := state -> coro A.

Definition ret {A} (a : A) : M A := fun s => Done s (Ok a).
Definition raise {A} (e : exn) : M A := fun s => Done s (Raise e).

Fixpoint coro_bind {A B} (c : coro A) (f : A -> M B) : coro B :=
  match c with
  | Done s (Ok a) => f a s
  | Done s (Raise e) => Done s (Raise e)
  | Await s reqs k => Await s reqs (fun outs s' => coro_bind (k outs s') f)
  end.

Definition bind {A B} (m : M A) (f : A -> M B) : M B :=
  fun s => coro_bind (m s) f.

(** [try: m except Exception as e: h e].  Every exception of the model is an
    [Exception], [HTTPException] included. *)
Fixpoint coro_catch {A} (c : coro A) (h : exn -> M A) : coro A :=
  match c with
  | Done s (Ok a) => Done s (Ok a)
  | Done s (Raise e) => h e s
  | Await s reqs k => Await s reqs (fun outs s' => coro_catch (k outs s') h)
  end.

Definition try_except {A} (m : M A) (h : exn -> M A) : M A :=
  fun s => coro_catch (m s) h.

Notation "'let*' x ':=' m 'in' k" := (bind m (fun x => k))
  (at level 10, x pattern, m at level 200, k at level 200).
Notation "m ';;' k" := (bind m (fun _ => k))
  (at level 100, k at level 200, right associativity).

Definition lift {A} (r : result A) : M A :=
  match r with
  | Ok a => ret a
  | Raise e => raise e
  end.

Definition get_state : M state := fun s => Done s (Ok s).
Definition put_state (s' : state) : M unit := fun _ => Done s' (Ok tt).

Definition get_lb : M MiniLoadBalancer :=
  let* s := get_state in ret (load_balancer s).

Definition modify_lb (f : MiniLoadBalancer -> MiniLoadBalancer) : M unit :=
  let* s := get_state in put_state (with_load_balancer (f (load_balancer s)) s).

(** Suspend on a batch of requests; the answers come back in request order. *)
Definition await (reqs : list request) : M (list outcome) :=
  fun s => Await s reqs (fun outs s' => Done s' (Ok outs)).

(** The responses of a batch, or the first transport fault in it. *)
Fixpoint responses_of (outs : list outcome) : result (list response) :=
  match outs with
  | [] => Ok []
  | Responded r :: outs' =>
      result_bind (responses_of outs') (fun rs => Ok (r :: rs))
  | Failed msg :: _ => Raise (ClientError msg)
  end.

(** [await asyncio.gather] over the tasks: all requests are in flight
    together and the call returns when all have answered; a transport fault
    of any of them is raised.  Which fault comes out when several requests
    fail depends on their timing; the model takes the first in request
    order. *)
Definition gather (reqs : list request) : M (list response) :=
  let* outs := await reqs in lift (responses_of outs).

(** *** The heap of [dict] objects *)

(** The items of an object.  Every reference the code holds is to an object
    of the heap; a reference to none reads as an empty [dict]. *)
Definition deref (r : ref) : M dict :=
  let* s := get_state in ret (default ∅ (heap s !! r)).

(** A new object is placed after the existing ones. *)
Definition alloc (d : dict) : M ref :=
  let* s := get_state in
  put_state (with_heap (heap s ++ [d]) s) ;;
  ret (length (heap s)).

(** [d.copy()]: a new object with the same items. *)
Definition dict_copy (r : ref) : M ref :=
  let* d := deref r in alloc d.

(** [d.update({...})], in place. *)
Definition heap_update (r : ref) (kvs : list (string * pyval)) : M unit :=
  let* s := get_state in
  let* d := deref r in
  put_state (with_heap (<[r := dict_update d kvs]> (heap s)) s).

(** [[m for _ in range(n)]] *)
Fixpoint replicateM {A} (n : nat) (m : M A) : M (list A) :=
  match n with
  | O => ret []
  | S n' => let* x := m in let* xs := replicateM n' m in ret (x :: xs)
  end.

(** ** Running a coroutine *)

(** The network answers the [i]-th request of the [n]-th suspension. *)
Definition network : Type := nat -> nat -> request -> outcome.

(** What a run leaves behind: the last state, the value or exception, and
    for each suspension the state the coroutine was suspended in and the
    requests it was waiting for. *)
Record run_result (A : Type) : Type := {
  final : state;
  returned : result A;
  trace : list (state * list request);
}.
Arguments final {A} _.
Arguments returned {A} _.
Arguments trace {A} _.

(** Run a coroutine to its end with nothing else scheduled in between: it is
    resumed in the very state it was suspended in. *)
Fixpoint run_from {A} (net : network) (n : nat) (c : coro A) : run_result A :=
  match c with
  | Done s r => {| final := s; returned := r; trace := [] |}
  | Await s reqs k =>
      let rr := run_from net (S n) (k (imap (net n) reqs) s) in
      {| final := final rr; returned := returned rr;
         trace := (s, reqs) :: trace rr |}
  end.

Definition run {A} (net : network) (m : M A) (s : state) : run_result A :=
  run_from net O (m s).

(** All requests of a run, in the order they were issued. *)
Definition requests_sent {A} (rr : run_result A) : list request :=
  concat (map snd (trace rr)).

(** ** The balancer's methods *)

Definition admin_result (success : bool) (message : string) : dict :=
  {[ "success" := PBool success; "message" := PStr message ]}.

(** The body shared by the seven administrative methods: one [POST] per
    server of both pools, gathered, and reduced to one verdict. *)
Definition broadcast (route ok_message fail_message : string) : M dict :=
  let* lb := get_lb in
  let tasks :=
    map (fun server => POST (server ++ "/" ++ route) None)
        (prefill_servers lb ++ decode_servers lb) in
  let* responses := gather tasks in
  let success := forallb (fun r => status r =? 200) responses in
  ret (admin_result success (if success then ok_message else fail_message)).

Definition start_profile : M dict :=
  let* lb := get_lb in
  if profiling lb then
    ret (admin_result false "Profiling is already in progress")
  else
    modify_lb (set_profiling true) ;;
    broadcast "start_profile" "Profiling started" "Failed to start profiling".

Definition stop_profile : M dict :=
  let* lb := get_lb in
  if negb (profiling lb) then
    ret (admin_result false "Profiling is not in progress")
  else
    modify_lb (set_profiling false) ;;
    broadcast "stop_profile" "Profiling stopped" "Failed to stop profiling".

Definition start_expert_distribution_record : M dict :=
  let* lb := get_lb in
  if recording lb then
    ret (admin_result false "Recoding is already in progress")
  else
    modify_lb (set_recording true) ;;
    broadcast "start_expert_distribution_record"
      "Recording expert distribution started"
      "Failed to start recording expert distribution".

Definition stop_expert_distribution_record : M dict :=
  let* lb := get_lb in
  if negb (recording lb) then
    ret (admin_result false "Recoding is not in progress")
  else
    modify_lb (set_recording false) ;;
    broadcast "stop_expert_distribution_record"
      "Recording expert distribution stopped"
      "Failed to stop recording expert distribution".

Definition dump_expert_distribution_record : M dict :=
  broadcast "dump_expert_distribution_record"
    "Dumping expert distribution succeed"
    "Failed to dumping expert distribution".

Definition eplb_rebalance : M dict :=
  broadcast "eplb_rebalance" "EPLB rebalanced" "Failed to rebalancing EPLB.".

Definition eplb_save_expert_distribution : M dict :=
  broadcast "eplb_save_expert_distribution"
    "Saving expert distribution succeed"
    "Failed to saving expert distribution.".

(** ** Dual dispatch *)

Inductive chunk : Type :=
| Bytes (b : string)
| ErrorEvent (e : exn).

(** What a handler hands to the web framework.  The body of a streaming
    response is a generator the framework runs afterwards. *)
Inductive client_response : Type :=
| ORJSONResponse (content : pyval) (status_code : Z)
| StreamingResponse (body : M (list chunk)).

Definition two_legs (modified_request : dict)
    (prefill_server decode_server endpoint : string) : list request :=
  [ POST (prefill_server ++ "/" ++ endpoint) (Some modified_request);
    POST (decode_server ++ "/" ++ endpoint) (Some modified_request) ].

Definition generate (modified_request : ref)
    (prefill_server decode_server endpoint : string) : M client_response :=
  lift (assert_endpoint endpoint) ;;
  let* body := deref modified_request in
  let* responses :=
    gather (two_legs body prefill_server decode_server endpoint) in
  match responses with
  | [prefill_response; decode_response] =>
      let* content := lift (response_json decode_response) in
      ret (ORJSONResponse content (status decode_response))
  | _ => raise ValueError
  end.

(** The generator behind a streaming response.  The chunks it yields are
    collected in a list; a fault of either leg or in the middle of the decode
    stream ends the list with one error event.  The prefill response, once
    obtained, is released at the end. *)
Definition stream_results (modified_request : ref)
    (prefill_server decode_server endpoint : string) : M (list chunk) :=
  let* body := deref modified_request in
  let* outs := await (two_legs body prefill_server decode_server endpoint) in
  match responses_of outs with
  | Raise e => ret [ErrorEvent e]
  | Ok [prefill_response; decode_response] =>
      let chunks :=
        (map Bytes (content decode_response) ++
         match content_fault decode_response with
         | Some msg => [ErrorEvent (ClientError msg)]
         | None => []
         end)%list in
      await [RELEASE (prefill_server ++ "/" ++ endpoint)] ;;
      ret chunks
  | Ok _ => ret [ErrorEvent ValueError]
  end.

Definition generate_stream (modified_request : ref)
    (prefill_server decode_server endpoint : string) : M client_response :=
  lift (assert_endpoint endpoint) ;;
  ret (StreamingResponse
         (stream_results modified_request prefill_server decode_server endpoint)).

(** The framework's part in a streaming response: it runs the generator after
    the handler has returned. *)
Definition serve (m : M client_response) : M (option (list chunk)) :=
  let* resp := m in
  match resp with
  | ORJSONResponse _ _ => ret None
  | StreamingResponse body => let* chunks := body in ret (Some chunks)
  end.

(** [GET /v1/models] *)
Definition get_models : M client_response :=
  let* lb := get_lb in
  let* prefill_server := lift (py_index (prefill_servers lb) 0) in
  try_except
    (let* responses := gather [GET (prefill_server ++ "/v1/models")] in
     match responses with
     | [response] =>
         if negb (status response =? 200) then
           raise (HTTPException (status response)
                    (PrefillServerErrorStatus (status response)))
         else
           let* content := lift (response_json response) in
           ret (ORJSONResponse content 200)
     | _ => raise ValueError
     end)
    (fun e => raise (HTTPException 500 (StrOf e))).

Section Randomness.

(** The raw draws of the [random] module, and the host name
    [urllib.parse.urlparse(url).hostname] of a URL ([None] when the URL has
    none); both belong to the Python library. *)
Variable entropy : nat -> Z.
Variable hostname_of : string -> option string.

Definition draw : M Z :=
  let* s := get_state in
  put_state (with_rng_pos (S (rng_pos s)) s) ;;
  ret (entropy (rng_pos s)).

(** [random.randint(a, b)]: an integer [n] with [a <= n <= b]. *)
Definition random_randint (a b : Z) : M Z :=
  if b <? a then raise ValueError
  else let* r := draw in ret (a + r mod (b - a + 1)).

(** [random.choice(seq)] *)
Definition random_choice {A} (seq : list A) : M A :=
  match seq with
  | [] => raise IndexError
  | _ =>
      let* r := draw in
      lift (py_index seq (r mod Z.of_nat (length seq)))
  end.

Definition _generate_bootstrap_room : M Z :=
  random_randint 0 (2 ^ 63 - 1).

Definition select_pair : M (string * Z * string) :=
  let* lb := get_lb in
  let* prefill_config :=
    lift (py_index (prefill_configs lb) (round_robin_counter lb)) in
  let* next :=
    lift (py_mod (round_robin_counter lb + 1)
                 (Z.of_nat (length (prefill_configs lb)))) in
  modify_lb (set_round_robin_counter next) ;;
  let* lb := get_lb in
  let* decode_server := random_choice (decode_servers lb) in
  ret (url prefill_config, bootstrap_port prefill_config, decode_server).

Definition hostname (prefill_server : string) : pyval :=
  match hostname_of prefill_server with
  | Some h => PStr h
  | None => PNone
  end.

(** The bootstrap injection of [handle_generate_request]: the request is
    copied and the copy receives the three bootstrap fields. *)
Definition inject_generate_bootstrap (request_data : ref)
    (prefill_server : string) (bootstrap_port : Z) : M ref :=
  let hostname := hostname prefill_server in
  let* modified_request := dict_copy request_data in
  let* request := deref modified_request in
  let* batch_size := lift (_get_request_batch_size request) in
  match batch_size with
  | Some n =>
      let* rooms := replicateM n _generate_bootstrap_room in
      heap_update modified_request
        [ ("bootstrap_host", PList (repeat hostname n));
          ("bootstrap_port", PList (repeat (PInt bootstrap_port) n));
          ("bootstrap_room", PList (map PInt rooms)) ]
  | None =>
      let* room := _generate_bootstrap_room in
      heap_update modified_request
        [ ("bootstrap_host", hostname);
          ("bootstrap_port", PInt bootstrap_port);
          ("bootstrap_room", PInt room) ]
  end ;;
  ret modified_request.

(** The bootstrap injection of [handle_completion_request] (the [print] of
    the room is left out). *)
Definition inject_completion_bootstrap (request_data : ref)
    (prefill_server : string) (bootstrap_port : Z) : M ref :=
  let hostname := hostname prefill_server in
  let* modified_request := dict_copy request_data in
  let* request := deref modified_request in
  let* bootstrap_room :=
    match dict_get_default request "req_id" PNone with
    | PNone => let* room := random_randint 0 (2 ^ 63 - 1) in ret (PInt room)
    | req_id => ret req_id
    end in
  heap_update modified_request
    [ ("bootstrap_host", hostname);
      ("bootstrap_port", PInt bootstrap_port);
      ("bootstrap_room", bootstrap_room) ] ;;
  ret modified_request.

(** The dispatch both handlers end with. *)
Definition dispatch (request_data modified_request : ref)
    (prefill_server decode_server endpoint : string) : M client_response :=
  let* original := deref request_data in
  if truthy (dict_get_default original "stream" (PBool false)) then
    generate_stream modified_request prefill_server decode_server endpoint
  else
    generate modified_request prefill_server decode_server endpoint.

(** [POST /generate] *)
Definition handle_generate_request (request_data : ref) : M client_response :=
  let* (prefill_server, bootstrap_port, decode_server) := select_pair in
  let* modified_request :=
    inject_generate_bootstrap request_data prefill_server bootstrap_port in
  dispatch request_data modified_request prefill_server decode_server
    "generate".

(** [POST /v1/chat/completions] *)
Definition handle_completion_request (request_data : ref)
  : M client_response :=
  let* (prefill_server, bootstrap_port, decode_server) := select_pair in
  let* modified_request :=
    inject_completion_bootstrap request_data prefill_server bootstrap_port in
  dispatch request_data modified_request prefill_server decode_server
    "v1/chat/completions".

(** [n] calls of [select_pair] one after the other, each recorded with the
    cursor it found. *)
Fixpoint select_pair_calls (n : nat) : M (list (Z * (string * Z * string))) :=
  match n with
  | O => ret []
  | S n' =>
      let* lb := get_lb in
      let* chosen := select_pair in
      let* rest := select_pair_calls n' in
      ret ((round_robin_counter lb, chosen) :: rest)
  end.

End Randomness.

(** ** The routes that probe and collect *)

(** A bare [Response(status_code=...)]. *)
Inductive plain_response : Type :=
| Response (status_code : Z).

(** [GET /health] *)
Definition health_check : M plain_response := ret (Response 200).

(** [for response in asyncio.as_completed(tasks): await response]: the
    requests are in flight together and each is waited for; with no task the
    loop does not run.  A transport fault of any of them is raised; as for
    [gather], the model takes the first in request order. *)
Definition await_each_completed (tasks : list request) : M unit :=
  match tasks with
  | [] => ret tt
  | _ => let* outs := await tasks in let* _ := lift (responses_of outs) in ret tt
  end.

(** The body shared by [/health_generate] and [/flush_cache]: one [POST] per
    server of both pools, each waited for, none looked at. *)
Definition probe_all (route : string) : M plain_response :=
  let* lb := get_lb in
  let tasks :=
    map (fun server => POST (server ++ "/" ++ route) None)
        (prefill_servers lb ++ decode_servers lb) in
  await_each_completed tasks ;;
  ret (Response 200).

(** [GET /health_generate] (a second function named [health_check] in the
    source). *)
Definition health_generate : M plain_response := probe_all "health_generate".

(** [POST /flush_cache] *)
Definition flush_cache : M plain_response := probe_all "flush_cache".

(** [await session.get(url)]: one request, one suspension. *)
Definition session_get (target : string) : M response :=
  let* outs := await [GET target] in
  match outs with
  | [Responded r] => ret r
  | [Failed msg] => raise (ClientError msg)
  | _ => raise ValueError
  end.

(** One loop of [get_server_info]: the servers are asked one after the
    other, and each answer is appended once its JSON body is read. *)
Fixpoint collect_server_infos (servers : list string) : M (list pyval) :=
  match servers with
  | [] => ret []
  | server :: servers' =>
      let* server_info := session_get (server ++ "/get_server_info") in
      let* info := lift (response_json server_info) in
      let* infos := collect_server_infos servers' in
      ret (info :: infos)
  end.

(** [GET /get_server_info] *)
Definition get_server_info : M dict :=
  let* lb := get_lb in
  let* prefill_infos := collect_server_infos (prefill_servers lb) in
  let* decode_infos := collect_server_infos (decode_servers lb) in
  ret {[ "prefill" := PList prefill_infos; "decode" := PList decode_infos ]}.

(** [GET /get_model_info]: a fixed descriptor. *)
Definition get_model_info : M client_response :=
  ret (ORJSONResponse
         (PDict [ ("model_path", PStr "/path/to/dummy/model");
                  ("tokenizer_path", PStr "/path/to/dummy/tokenizer");
                  ("is_generation", PBool true);
                  ("preferred_sampling_params",
                   PDict [ ("temperature", PFloat 7 (-1));
                           ("max_new_tokens", PInt 128) ]) ])
         200).

(** ** Start-up *)

(** [s.split(sep)] for a separator of one character: the pieces between the
    separators, empty pieces included; never an empty list. *)
Fixpoint split_on (sep : ascii) (s : string) : list string :=
  match s with
  | EmptyString => [EmptyString]
  | String c s' =>
      if Ascii.eqb c sep then EmptyString :: split_on sep s'
      else
        match split_on sep s' with
        | [] => [String c EmptyString]
        | piece :: pieces => String c piece :: pieces
        end
  end.

(** [[f(x) for x in l]] where [f] may raise: the first exception comes out. *)
Fixpoint result_map {A B} (f : A -> result B) (l : list A) : result (list B) :=
  match l with
  | [] => Ok []
  | x :: l' =>
      result_bind (f x) (fun y =>
      result_bind (result_map f l') (fun ys => Ok (y :: ys)))
  end.

(** [l * n] on a Python list. *)
Definition list_times {A} (l : list A) (n : nat) : list A :=
  concat (repeat l n).

Section CommandLine.

(** [int(p)], which belongs to the Python library. *)
Variable py_int : string -> result Z.

(** The main block after the arguments are parsed: from the three
    comma-separated strings to the prefill configurations and the decode
    addresses. *)
Definition main_configs (prefill prefill_bootstrap_ports decode : string)
  : result (list PrefillConfig * list string) :=
  let prefill_urls := split_on ","%char prefill in
  result_bind
    (result_map py_int (split_on ","%char prefill_bootstrap_ports))
    (fun bootstrap_ports =>
  result_bind
    (if Nat.eqb (length bootstrap_ports) 1 then
       Ok (list_times bootstrap_ports (length prefill_urls))
     else if negb (Nat.eqb (length bootstrap_ports) (length prefill_urls)) then
       Raise ValueError
     else Ok bootstrap_ports)
    (fun bootstrap_ports =>
  let prefill_configs :=
    map (fun '(u, port) => {| url := u; bootstrap_port := port |})
        (combine prefill_urls bootstrap_ports) in
  let decode_addrs := split_on ","%char decode in
  Ok (prefill_configs, decode_addrs))).

(** The balancer [run] installs for a command line. *)
Definition main (prefill prefill_bootstrap_ports decode : string)
  : result MiniLoadBalancer :=
  result_bind (main_configs prefill prefill_bootstrap_ports decode)
    (fun '(prefill_configs, decode_addrs) =>
       Ok (init prefill_configs decode_addrs)).

End CommandLine.

(** ** Vocabulary of the statements *)

(** The cursor values met by [n] successive selections over a pool of [P]
    prefill servers, starting from cursor [c]. *)
Definition cursor_seq (c P : Z) (n : nat) : list Z :=
  map (fun k => (c + Z.of_nat k) mod P) (seq 0 n).

(** The quotient rounded up. *)
Definition ceil_div (n p : Z) : Z := (n + p - 1) / p.

(** How often index [i] occurs among the cursors. *)
Definition times_chosen (cursors : list Z) (i : Z) : Z :=
  Z.of_nat (count_occ Z.eq_dec cursors i).

(** A recorded call chose the prefill server under the cursor it found, and
    some server of the decode pool. *)
Definition chosen_from (lb : MiniLoadBalancer)
    (call : Z * (string * Z * string)) : Prop :=
  exists cfg d,
    prefill_configs lb !! Z.to_nat (fst call) = Some cfg /\
    d ∈ decode_servers lb /\
    snd call = (url cfg, bootstrap_port cfg, d).

(** *** The batch size as the specification words it

    A scalar is a value that is neither a sequence nor an object.  The words
    assign a batch size when [text] is a string or a list, when [input_ids]
    has a first element, and when neither field decides; elsewhere they
    assign nothing. *)
Definition is_scalar (v : pyval) : bool :=
  match v with
  | PList _ | PDict _ => false
  | _ => true
  end.

Definition spec_batch_size (request : dict) : option (option nat) :=
  match request !! "text" with
  | Some (PStr _) => Some None
  | Some (PList l) => Some (Some (length l))
  | _ =>
      match request !! "input_ids" with
      | Some (PList (first :: rest)) =>
          if is_scalar first then Some None
          else Some (Some (length (first :: rest)))
      | Some _ => None
      | None => Some None
      end
  end.

Definition batch_size_as_specified (request : dict) : Prop :=
  forall b, spec_batch_size request = Some b ->
            _get_request_batch_size request = Ok b.

(** *** The administrative operations as a table *)

Inductive admin_op : Type :=
| StartProfile
| StopProfile
| StartRecord
| StopRecord
| DumpRecord
| EplbRebalance
| EplbSave.

Definition admin_method (op : admin_op) : M dict :=
  match op with
  | StartProfile => start_profile
  | StopProfile => stop_profile
  | StartRecord => start_expert_distribution_record
  | StopRecord => stop_expert_distribution_record
  | DumpRecord => dump_expert_distribution_record
  | EplbRebalance => eplb_rebalance
  | EplbSave => eplb_save_expert_distribution
  end.

Definition admin_route (op : admin_op) : string :=
  match op with
  | StartProfile => "start_profile"
  | StopProfile => "stop_profile"
  | StartRecord => "start_expert_distribution_record"
  | StopRecord => "stop_expert_distribution_record"
  | DumpRecord => "dump_expert_distribution_record"
  | EplbRebalance => "eplb_rebalance"
  | EplbSave => "eplb_save_expert_distribution"
  end.

Definition ok_message (op : admin_op) : string :=
  match op with
  | StartProfile => "Profiling started"
  | StopProfile => "Profiling stopped"
  | StartRecord => "Recording expert distribution started"
  | StopRecord => "Recording expert distribution stopped"
  | DumpRecord => "Dumping expert distribution succeed"
  | EplbRebalance => "EPLB rebalanced"
  | EplbSave => "Saving expert distribution succeed"
  end.

Definition fail_message (op : admin_op) : string :=
  match op with
  | StartProfile => "Failed to start profiling"
  | StopProfile => "Failed to stop profiling"
  | StartRecord => "Failed to start recording expert distribution"
  | StopRecord => "Failed to stop recording expert distribution"
  | DumpRecord => "Failed to dumping expert distribution"
  | EplbRebalance => "Failed to rebalancing EPLB."
  | EplbSave => "Failed to saving expert distribution."
  end.

(** The four operations behind a guard. *)
Definition guarded (op : admin_op) : bool :=
  match op with
  | StartProfile | StopProfile | StartRecord | StopRecord => true
  | _ => false
  end.

(** The flag a guarded operation looks at. *)
Definition flag (op : admin_op) (lb : MiniLoadBalancer) : bool :=
  match op with
  | StartProfile | StopProfile => profiling lb
  | StartRecord | StopRecord => recording lb
  | _ => false
  end.

(** A start is refused while the flag is up, a stop while it is down. *)
Definition refused (op : admin_op) (lb : MiniLoadBalancer) : bool :=
  match op with
  | StartProfile | StartRecord => flag op lb
  | StopProfile | StopRecord => negb (flag op lb)
  | _ => false
  end.

Definition refusal_message (op : admin_op) : string :=
  match op with
  | StartProfile => "Profiling is already in progress"
  | StopProfile => "Profiling is not in progress"
  | StartRecord => "Recoding is already in progress"
  | StopRecord => "Recoding is not in progress"
  | _ => EmptyString
  end.

(** The balancer with the flag of a guarded operation moved. *)
Definition flipped (op : admin_op) (lb : MiniLoadBalancer) : MiniLoadBalancer :=
  match op with
  | StartProfile => set_profiling true lb
  | StopProfile => set_profiling false lb
  | StartRecord => set_recording true lb
  | StopRecord => set_recording false lb
  | _ => lb
  end.

(** The requests of a broadcast: one per server, prefill pool first. *)
Definition broadcast_requests (route : string) (lb : MiniLoadBalancer)
  : list request :=
  map (fun server => POST (server ++ "/" ++ route) None)
      (prefill_servers lb ++ decode_servers lb).

Definition all_200 (rs : list response) : bool :=
  forallb (fun r => status r =? 200) rs.

(** The reading of "the flag is updated only after the broadcast completes":
    whenever the operation is suspended, the flag is still what it was. *)
Definition flag_kept_until_broadcast_completes
    (net : network) (op : admin_op) (s : state) : Prop :=
  forall st reqs,
    In (st, reqs) (trace (run net (admin_method op) s)) ->
    flag op (load_balancer st) = flag op (load_balancer s).

(** *** The bootstrap fields *)

(** A request body with the three bootstrap fields set. *)
Definition injected (d : dict) (host port room : pyval) : dict :=
  <["bootstrap_room" := room]>
    (<["bootstrap_port" := port]> (<["bootstrap_host" := host]> d)).

(** A value as it is, or as many copies of it as the batch has items. *)
Definition replicated (batch_size : option nat) (v : pyval) : pyval :=
  match batch_size with
  | None => v
  | Some n => PList (repeat v n)
  end.

(** The identifier made of one raw draw. *)
Definition room_of_draw (r : Z) : Z := r mod 2 ^ 63.

(** The identifiers made of [n] successive draws from position [pos] on. *)
Definition rooms_from (entropy : nat -> Z) (pos n : nat) : list Z :=
  map (fun i => room_of_draw (entropy (pos + i)%nat)) (seq 0 n).

(** The room field of [/generate]: one identifier, or one per item. *)
Definition rooms_field (entropy : nat -> Z) (pos : nat)
    (batch_size : option nat) : pyval :=
  match batch_size with
  | None => PInt (room_of_draw (entropy pos))
  | Some n => PList (map PInt (rooms_from entropy pos n))
  end.

(** The room field of [/v1/chat/completions]: the caller's [req_id] when
    there is one, else a fresh identifier. *)
Definition completion_room (entropy : nat -> Z) (pos : nat) (d : dict) : pyval :=
  match dict_get_default d "req_id" PNone with
  | PNone => PInt (room_of_draw (entropy pos))
  | req_id => req_id
  end.


(** An exception the web framework answers with a 4xx status. *)
Definition is_client_error (e : exn) : bool :=
  match e with
  | HTTPException code _ => (400 <=? code) && (code <? 500)
  | _ => false
  end.

(** *** Further vocabulary *)

(** The operation that undoes a guarded one. *)
Definition opposite (op : admin_op) : admin_op :=
  match op with
  | StartProfile => StopProfile
  | StopProfile => StartProfile
  | StartRecord => StopRecord
  | StopRecord => StartRecord
  | _ => op
  end.

(** [sep.join(pieces)] for a separator of one character. *)
Fixpoint join_with (sep : ascii) (pieces : list string) : string :=
  match pieces with
  | [] => EmptyString
  | [piece] => piece
  | piece :: pieces' => piece ++ String sep (join_with sep pieces')
  end.

(** How often a character occurs in a string. *)
Fixpoint count_char (c : ascii) (s : string) : nat :=
  match s with
  | EmptyString => O
  | String c' s' => (if Ascii.eqb c' c then 1 else 0) + count_char c s'
  end.


(** The JSON body the network gives at suspension [n] to the info request
    for [server]. *)
Definition info_at (net : network) (n : nat) (server : string) : pyval :=
  match net n O (GET (server ++ "/get_server_info")) with
  | Responded r => default PNone (json_body r)
  | Failed _ => PNone
  end.

(** The network answers the info request for [server] at suspension [n]
    with a JSON body. *)
Definition info_ok (net : network) (n : nat) (server : string) : Prop :=
  exists r v,
    net n O (GET (server ++ "/get_server_info")) = Responded r /\
    json_body r = Some v.

(** The bodies given to the info requests for [servers], asked one after the
    other from suspension [n] on. *)
Fixpoint infos_from (net : network) (n : nat) (servers : list string)
  : list pyval :=
  match servers with
  | [] => []
  | server :: servers' => info_at net n server :: infos_from net (S n) servers'
  end.

(** All of them are answered with a JSON body. *)
Fixpoint all_info_ok (net : network) (n : nat) (servers : list string) : Prop :=
  match servers with
  | [] => True
  | server :: servers' => info_ok net n server /\ all_info_ok net (S n) servers'
  end.

Definition info_requests (servers : list string) : list request :=
  map (fun server => GET (server ++ "/get_server_info")) servers.

(** The network never meets a transport fault. *)
Definition always_responds (net : network) : Prop :=
  forall n i req, exists r, net n i req = Responded r.

(** ** Examples to run the model on *)

Definition example_configs : list PrefillConfig :=
  [ {| url := "http://p0:30000"; bootstrap_port := 8998 |};
    {| url := "http://p1:30000"; bootstrap_port := 8999 |} ].

Definition example_lb : MiniLoadBalancer :=
  init example_configs [ "http://d0:30001"; "http://d1:30001" ].

(** A process whose only object is the body of the request being served. *)
Definition example_state (body : dict) : state :=
  {| load_balancer := example_lb; heap := [body]; rng_pos := 0 |}.

Definition example_entropy (n : nat) : Z := Z.of_nat n * 7919 + 3.

(** A body that comes with a bootstrap host of its own. *)
Definition tampered_body : dict :=
  {[ "text" := PStr "hi"; "bootstrap_host" := PStr "mine" ]}.

Fixpoint until_colon (s : string) : string :=
  match s with
  | EmptyString => EmptyString
  | String c s' =>
      if Ascii.eqb c ":"%char then EmptyString else String c (until_colon s')
  end.

(** Host names of URLs of the form [http://host:port]. *)
Definition example_hostname (u : string) : option string :=
  Some (until_colon (String.substring 7 (String.length u) u)).

Definition json_response (code : Z) (v : pyval) : response :=
  {| status := code; json_body := Some v; content := []; content_fault := None |}.

(** One prefill server and two decode servers. *)
Definition small_state : state :=
  {| load_balancer :=
       init [ {| url := "http://p0:30000"; bootstrap_port := 8998 |} ]
            [ "http://d0:30001"; "http://d1:30001" ];
     heap := [];
     rng_pos := 0 |}.

(** Every backend answers 200 with the same JSON body. *)
Definition example_net : network :=
  fun _ _ _ => Responded (json_response 200 (PStr "done")).

(** Every backend answers with the given status. *)
Definition status_net (code : Z) : network :=
  fun _ _ _ => Responded (json_response code (PStr "detail")).

(** The third backend of a batch answers 503, the others 200. *)
Definition third_fails_net : network :=
  fun _ i _ =>
    Responded (json_response (if Nat.eqb i 2 then 503 else 200) (PStr "detail")).


(** Every request meets a transport fault. *)
Definition down_net : network := fun _ _ _ => Failed "connection refused".

(** [int] on plain decimal numerals; anything else is refused here. *)
Fixpoint decimal_value (acc : Z) (s : string) : result Z :=
  match s with
  | EmptyString => Ok acc
  | String c s' =>
      let n := Z.of_nat (nat_of_ascii c) in
      if (48 <=? n) && (n <=? 57) then decimal_value (10 * acc + (n - 48)) s'
      else Raise ValueError
  end.

Definition example_int (s : string) : result Z :=
  match s with
  | EmptyString => Raise ValueError
  | _ => decimal_value 0 s
  end.

(** * Properties *)

(** ** Sequencing *)

Lemma bind_Done {A B} (m : M A) (f : A -> M B) (s s' : state) (a : A) :
  m s = Done s' (Ok a) -> bind m f s = f a s'.
Proof. intros H. unfold bind. rewrite H. reflexivity. Qed.

Lemma bind_Raise {A B} (m : M A) (f : A -> M B) (s s' : state) (e : exn) :
  m s = Done s' (Raise e) -> bind m f s = Done s' (Raise e).
Proof. intros H. unfold bind. rewrite H. reflexivity. Qed.

(** ** Helper facts on the Python primitives *)

Lemma py_index_in_range {A} (l : list A) (i : Z) :
  0 <= i < Z.of_nat (length l) ->
  exists x, l !! Z.to_nat i = Some x /\ py_index l i = Ok x.
Proof.
  intros [Hlo Hhi]. unfold py_index.
  destruct (Z.ltb_spec i 0) as [Hneg|_]; [lia|].
  destruct (Z.leb_spec 0 i) as [_|Hneg]; [|lia].
  destruct (Z.ltb_spec i (Z.of_nat (length l))) as [_|Hge]; [|lia].
  cbn [andb].
  destruct (l !! Z.to_nat i) as [x|] eqn:Hx.
  - exists x. split; reflexivity.
  - apply lookup_ge_None in Hx. lia.
Qed.

Lemma py_mod_pos (a b : Z) : 0 < b -> py_mod a b = Ok (a mod b).
Proof.
  intros Hb. unfold py_mod.
  destruct (Z.eqb_spec b 0) as [Hz|_]; [lia|reflexivity].
Qed.

Lemma random_choice_nonempty entropy {A} (seq : list A) (s : state) :
  seq <> [] ->
  exists x, x ∈ seq /\
    random_choice entropy seq s = Done (with_rng_pos (S (rng_pos s)) s) (Ok x).
Proof.
  intros Hne.
  assert (Hlen : 0 < Z.of_nat (length seq)).
  { destruct seq; [congruence|cbn [length]; lia]. }
  destruct (py_index_in_range seq (entropy (rng_pos s) mod Z.of_nat (length seq)))
    as (x & Hx & Hidx).
  { apply Z.mod_pos_bound. exact Hlen. }
  exists x. split.
  - apply list_elem_of_lookup. eauto.
  - destruct seq as [|a seq']; [congruence|].
    unfold random_choice, draw, bind, get_state, put_state, ret. cbn [coro_bind].
    cbn [rng_pos with_rng_pos]. rewrite Hidx. reflexivity.
Qed.

(** One call of [select_pair] with the cursor inside the prefill pool and a
    decode pool that is not empty. *)
Lemma select_pair_step entropy (s : state) :
  let lb := load_balancer s in
  let P := Z.of_nat (length (prefill_configs lb)) in
  let c := round_robin_counter lb in
  0 <= c < P ->
  decode_servers lb <> [] ->
  exists cfg d,
    prefill_configs lb !! Z.to_nat c = Some cfg /\
    d ∈ decode_servers lb /\
    select_pair entropy s =
      Done (with_rng_pos (S (rng_pos s))
              (with_load_balancer (set_round_robin_counter ((c + 1) mod P) lb) s))
           (Ok (url cfg, bootstrap_port cfg, d)).
Proof.
  intros lb P c Hc Hdec.
  destruct (py_index_in_range (prefill_configs lb) c Hc) as (cfg & Hcfg & Hidx).
  set (s1 := with_load_balancer (set_round_robin_counter ((c + 1) mod P) lb) s).
  destruct (random_choice_nonempty entropy (decode_servers lb) s1 Hdec)
    as (d & Hd & Hchoice).
  exists cfg, d. split; [exact Hcfg|]. split; [exact Hd|].
  subst s1 lb P c. unfold select_pair.
  cbn -[py_index py_mod random_choice Z.modulo Z.of_nat] in *.
  rewrite Hidx. cbn -[py_index py_mod random_choice Z.modulo Z.of_nat].
  rewrite py_mod_pos by lia.
  cbn -[py_index py_mod random_choice Z.modulo Z.of_nat].
  rewrite (bind_Done _ _ _ _ _ Hchoice). reflexivity.
Qed.

(** ** Round robin *)

(** The cursor starts inside the pool and [select_pair] keeps it there,
    whether the call returns or raises. *)
Lemma init_cursor_in_range (configs : list PrefillConfig) (decode : list string) :
  configs <> [] ->
  0 <= round_robin_counter (init configs decode)
    < Z.of_nat (length (prefill_configs (init configs decode))).
Proof.
  intros Hne. cbn. destruct configs; [congruence|]. cbn [length]. lia.
Qed.

Lemma select_pair_keeps_cursor entropy (s s' : state)
    (res : result (string * Z * string)) :
  0 <= round_robin_counter (load_balancer s)
    < Z.of_nat (length (prefill_configs (load_balancer s))) ->
  select_pair entropy s = Done s' res ->
  0 <= round_robin_counter (load_balancer s')
    < Z.of_nat (length (prefill_configs (load_balancer s'))).
Proof.
  intros Hc Hsel.
  destruct (py_index_in_range _ _ Hc) as (cfg & _ & Hidx).
  assert (HP : 0 < Z.of_nat (length (prefill_configs (load_balancer s)))) by lia.
  pose proof (Z.mod_pos_bound (round_robin_counter (load_balancer s) + 1) _ HP)
    as Hnext.
  unfold select_pair, get_lb, modify_lb in Hsel.
  unfold bind, get_state, put_state, ret in Hsel. cbn [coro_bind] in Hsel.
  rewrite Hidx, (py_mod_pos _ _ HP) in Hsel.
  cbn [lift] in Hsel. unfold ret in Hsel. cbn [coro_bind] in Hsel.
  cbn [load_balancer with_load_balancer decode_servers set_round_robin_counter]
    in Hsel.
  destruct (decode_servers (load_balancer s)) as [|a l].
  - cbn in Hsel. injection Hsel as <- _. exact Hnext.
  - unfold random_choice, draw in Hsel.
    unfold bind, get_state, put_state, ret in Hsel. cbn [coro_bind] in Hsel.
    destruct (py_index (a :: l) _) as [x|e];
      cbn [lift] in Hsel; unfold ret, raise in Hsel; cbn [coro_bind] in Hsel;
      injection Hsel as <- _; exact Hnext.
Qed.

Lemma ceil_div_spec (n p : Z) :
  0 < p -> (ceil_div n p - 1) * p < n <= ceil_div n p * p.
Proof.
  intros Hp. unfold ceil_div.
  Z.to_euclidean_division_equations. nia.
Qed.

Lemma cursor_seq_S (c P : Z) (n : nat) :
  0 <= c < P ->
  cursor_seq c P (S n) = c :: cursor_seq ((c + 1) mod P) P n.
Proof.
  intros Hc. unfold cursor_seq. cbn [seq map].
  f_equal.
  - rewrite Z.add_0_r. apply Z.mod_small. exact Hc.
  - rewrite <- seq_shift, map_map. apply map_ext. intros k.
    rewrite Zplus_mod_idemp_l. f_equal. lia.
Qed.

Lemma cursor_seq_snoc (c P : Z) (n : nat) :
  cursor_seq c P (S n) = (cursor_seq c P n ++ [(c + Z.of_nat n) mod P])%list.
Proof. unfold cursor_seq. rewrite seq_S, map_app. reflexivity. Qed.

Lemma div_succ_hit (m P : Z) :
  0 < P -> (m + 1) mod P = 0 -> (m + 1) / P = m / P + 1.
Proof.
  intros HP H.
  pose proof (Z.div_mod (m + 1) P) as E1. pose proof (Z.div_mod m P) as E2.
  pose proof (Z.mod_pos_bound m P HP) as B.
  rewrite H in E1. nia.
Qed.

Lemma div_succ_miss (m P : Z) :
  0 < P -> (m + 1) mod P <> 0 -> (m + 1) / P = m / P.
Proof.
  intros HP H.
  pose proof (Z.div_mod (m + 1) P) as E1. pose proof (Z.div_mod m P) as E2.
  pose proof (Z.mod_pos_bound m P HP) as B.
  pose proof (Z.mod_pos_bound (m + 1) P HP) as B1. nia.
Qed.

(** Index [i] is met at step [n] exactly when [n] is a whole number of
    rounds past the first hit. *)
Lemma hit_iff (c P i n : Z) :
  0 < P -> 0 <= i < P ->
  (c + n) mod P = i <-> (n - (i - c) mod P) mod P = 0.
Proof.
  intros HP Hi. rewrite Zminus_mod_idemp_r.
  replace (n - (i - c)) with ((c + n) - i) by lia. split.
  - intros H. rewrite <- Zminus_mod_idemp_l, H, Z.sub_diag.
    apply Z.mod_0_l. lia.
  - intros H. apply Z.div_exact in H; [|lia].
    replace (c + n) with (i + ((c + n - i) / P) * P) by lia.
    rewrite Z.mod_add by lia. apply Z.mod_small. exact Hi.
Qed.

(** The number of hits of index [i] in closed form: the first hit is at
    offset [(i - c) mod P] and the hits are [P] apart. *)
Lemma times_chosen_closed_form (c P i : Z) (n : nat) :
  0 < P -> 0 <= i < P ->
  times_chosen (cursor_seq c P n) i =
  (Z.of_nat n + P - 1 - (i - c) mod P) / P.
Proof.
  intros HP Hi. unfold times_chosen. induction n as [|n IH].
  - cbn [cursor_seq seq map count_occ].
    pose proof (Z.mod_pos_bound (i - c) P HP) as Hd.
    symmetry. apply Z.div_small. lia.
  - rewrite cursor_seq_snoc, count_occ_app, Nat2Z.inj_add, IH.
    cbn [count_occ]. clear IH.
    set (d := (i - c) mod P).
    assert (Hm : (Z.of_nat n + P - 1 - d + 1) mod P = (Z.of_nat n - d) mod P).
    { replace (Z.of_nat n + P - 1 - d + 1) with (Z.of_nat n - d + 1 * P) by lia.
      apply Z.mod_add. lia. }
    replace (Z.of_nat (S n) + P - 1 - d) with (Z.of_nat n + P - 1 - d + 1) by lia.
    destruct (Z.eq_dec ((c + Z.of_nat n) mod P) i) as [Heq|Hne].
    + apply hit_iff in Heq; [|lia|lia]. fold d in Heq.
      rewrite div_succ_hit; [reflexivity|lia|congruence].
    + rewrite div_succ_miss; [cbn; lia|lia|].
      rewrite Hm. intros H. apply Hne. apply hit_iff; [lia|lia|exact H].
Qed.

(** Every index is met the quotient of the calls by the pool size times,
    rounded down or up. *)
Lemma times_chosen_floor_or_ceil (c P i : Z) (n : nat) :
  0 < P -> 0 <= i < P ->
  times_chosen (cursor_seq c P n) i = Z.of_nat n / P \/
  times_chosen (cursor_seq c P n) i = ceil_div (Z.of_nat n) P.
Proof.
  intros HP Hi. rewrite times_chosen_closed_form by assumption.
  unfold ceil_div.
  pose proof (Z.mod_pos_bound (i - c) P HP) as Hd.
  set (d := (i - c) mod P) in *.
  assert (Hlo : Z.of_nat n / P <= (Z.of_nat n + P - 1 - d) / P)
    by (apply Z.div_le_mono; lia).
  assert (Hhi : (Z.of_nat n + P - 1 - d) / P <= (Z.of_nat n + P - 1) / P)
    by (apply Z.div_le_mono; lia).
  assert (Hgap : (Z.of_nat n + P - 1) / P <= Z.of_nat n / P + 1).
  { replace (Z.of_nat n / P + 1) with ((Z.of_nat n + 1 * P) / P)
      by (rewrite Z.div_add by lia; reflexivity).
    apply Z.div_le_mono; lia. }
  lia.
Qed.

Lemma cursor_seq_length (c P : Z) (n : nat) : length (cursor_seq c P n) = n.
Proof. unfold cursor_seq. rewrite length_map, length_seq. reflexivity. Qed.

Lemma cursor_seq_lookup (c P : Z) (n k : nat) :
  (k < n)%nat -> cursor_seq c P n !! k = Some ((c + Z.of_nat k) mod P).
Proof.
  induction n as [|n IH]; intros Hk; [lia|].
  rewrite cursor_seq_snoc.
  destruct (Nat.eq_dec k n) as [->|Hne].
  - rewrite lookup_app_r by (rewrite cursor_seq_length; lia).
    rewrite cursor_seq_length, Nat.sub_diag. reflexivity.
  - rewrite lookup_app_l by (rewrite cursor_seq_length; lia).
    apply IH. lia.
Qed.

(** [n] calls in a row all return, and walk the pool in cyclic order. *)
Lemma select_pair_calls_run entropy (n : nat) (s : state) :
  0 <= round_robin_counter (load_balancer s)
    < Z.of_nat (length (prefill_configs (load_balancer s))) ->
  decode_servers (load_balancer s) <> [] ->
  exists s' calls,
    select_pair_calls entropy n s = Done s' (Ok calls) /\
    map fst calls =
      cursor_seq (round_robin_counter (load_balancer s))
        (Z.of_nat (length (prefill_configs (load_balancer s)))) n /\
    Forall (chosen_from (load_balancer s)) calls /\
    round_robin_counter (load_balancer s') =
      (round_robin_counter (load_balancer s) + Z.of_nat n)
        mod Z.of_nat (length (prefill_configs (load_balancer s))).
Proof.
  revert s. induction n as [|n IH]; intros s Hc Hdec.
  - exists s, []. repeat split.
    + constructor.
    + rewrite Z.add_0_r. symmetry. apply Z.mod_small. exact Hc.
  - destruct (select_pair_step entropy s Hc Hdec) as (cfg & d & Hcfg & Hd & Hstep).
    set (P := Z.of_nat (length (prefill_configs (load_balancer s)))) in *.
    set (c := round_robin_counter (load_balancer s)) in *.
    set (s1 := with_rng_pos _ _) in Hstep.
    assert (HP : 0 < P) by lia.
    destruct (IH s1) as (s' & calls & Hrun & Hcur & Hall & Hfin).
    { cbn. apply Z.mod_pos_bound. exact HP. }
    { exact Hdec. }
    change (Z.of_nat (length (prefill_configs (load_balancer s1)))) with P in *.
    change (round_robin_counter (load_balancer s1)) with ((c + 1) mod P) in *.
    exists s', ((c, (url cfg, bootstrap_port cfg, d)) :: calls).
    split; [|split; [|split]].
    + cbn [select_pair_calls].
      unfold bind at 1. unfold get_lb, bind at 1, get_state, ret. cbn [coro_bind].
      rewrite (bind_Done _ _ _ _ _ Hstep).
      rewrite (bind_Done _ _ _ _ _ Hrun). reflexivity.
    + cbn [map fst]. rewrite Hcur. symmetry. apply cursor_seq_S. exact Hc.
    + constructor; [|exact Hall].
      exists cfg, d. split; [exact Hcfg|]. split; [exact Hd|reflexivity].
    + rewrite Hfin, Zplus_mod_idemp_l. f_equal. lia.
Qed.

(** C1.  Round-robin fairness of [select_pair]: with [P >= 1] prefill
    servers, a decode pool that is not empty and the cursor inside the pool,
    [N >= 1] calls in a row all return; the call finding cursor [i] returns
    the prefill server at index [i]; the cursors found are
    [c, c+1, ..., c+N-1] modulo [P], each the previous one plus one modulo
    [P], and so is the cursor left behind; every index of the pool is chosen
    [N / P] times rounded down or rounded up. *)
Theorem select_pair_round_robin_fairness
    (entropy : nat -> Z) (s : state) (N : nat) (P c : Z) :
  P = Z.of_nat (length (prefill_configs (load_balancer s))) ->
  c = round_robin_counter (load_balancer s) ->
  1 <= P ->
  (1 <= N)%nat ->
  0 <= c < P ->
  decode_servers (load_balancer s) <> [] ->
  exists s' calls,
    select_pair_calls entropy N s = Done s' (Ok calls) /\
    length calls = N /\
    Forall (chosen_from (load_balancer s)) calls /\
    (forall k : nat, (k < N)%nat ->
       map fst calls !! k = Some ((c + Z.of_nat k) mod P)) /\
    (forall (k : nat) (i j : Z),
       map fst calls !! k = Some i -> map fst calls !! S k = Some j ->
       j = (i + 1) mod P) /\
    (forall i : Z, map fst calls !! (N - 1)%nat = Some i ->
       round_robin_counter (load_balancer s') = (i + 1) mod P) /\
    (forall i : Z, 0 <= i < P ->
       times_chosen (map fst calls) i = Z.of_nat N / P \/
       times_chosen (map fst calls) i = ceil_div (Z.of_nat N) P).
Proof.
  intros -> -> HP HN Hc Hdec.
  destruct (select_pair_calls_run entropy N s Hc Hdec)
    as (s' & calls & Hrun & Hcur & Hall & Hfin).
  set (P := Z.of_nat (length (prefill_configs (load_balancer s)))) in *.
  set (c := round_robin_counter (load_balancer s)) in *.
  exists s', calls.
  assert (Hlen : length calls = N).
  { rewrite <- (length_map fst), Hcur. apply cursor_seq_length. }
  split; [exact Hrun|]. split; [exact Hlen|]. split; [exact Hall|].
  rewrite Hcur. split; [|split; [|split]].
  - intros k Hk. apply cursor_seq_lookup. exact Hk.
  - intros k i j Hi Hj.
    assert (Hk : (S k < N)%nat).
    { apply lookup_lt_Some in Hj. rewrite cursor_seq_length in Hj. exact Hj. }
    rewrite cursor_seq_lookup in Hi by lia.
    rewrite cursor_seq_lookup in Hj by lia.
    injection Hi as <-. injection Hj as <-.
    rewrite Zplus_mod_idemp_l. f_equal. lia.
  - intros i Hi. rewrite cursor_seq_lookup in Hi by lia.
    injection Hi as <-. rewrite Hfin, Zplus_mod_idemp_l. f_equal. lia.
  - intros i Hi. apply times_chosen_floor_or_ceil; [lia|exact Hi].
Qed.

(** ** Batch size *)

(** C3, as the code has it.  The batch size, case by case on the two fields:
    [text] decides when it is present and not null, a string giving null and
    anything else its length; otherwise [input_ids] decides when it is
    present and not null, an integer first element giving null and any other
    first element the length; a value without a length or without a first
    element raises.  The five example bodies give null, 3, null, 2 and null. *)
Theorem batch_size_detection (request : dict) :
  _get_request_batch_size request =
    match request !! "text" with
    | Some (PStr _) => Ok None
    | Some (PList l) => Ok (Some (length l))
    | Some (PDict l) => Ok (Some (length (distinct_keys l)))
    | Some (PBool _) | Some (PInt _) | Some (PFloat _ _) => Raise TypeError
    | None | Some PNone =>
        match request !! "input_ids" with
        | None | Some PNone => Ok None
        | Some (PList []) => Raise IndexError
        | Some (PList (first :: rest)) =>
            if isinstance_int first then Ok None
            else Ok (Some (S (length rest)))
        | Some (PStr EmptyString) => Raise IndexError
        | Some (PStr (String _ rest)) => Ok (Some (S (String.length rest)))
        | Some (PDict _) => Raise KeyError
        | Some (PBool _) | Some (PInt _) | Some (PFloat _ _) => Raise TypeError
        end
    end
  /\ _get_request_batch_size {[ "text" := PStr "hello" ]} = Ok None
  /\ _get_request_batch_size
       {[ "text" := PList [PStr "a"; PStr "b"; PStr "c"] ]} = Ok (Some 3%nat)
  /\ _get_request_batch_size
       {[ "input_ids" := PList [PInt 1; PInt 2; PInt 3] ]} = Ok None
  /\ _get_request_batch_size
       {[ "input_ids" := PList [PList [PInt 1; PInt 2];
                                PList [PInt 3; PInt 4]] ]} = Ok (Some 2%nat)
  /\ _get_request_batch_size ∅ = Ok None.
Proof.
  split; [|repeat split; reflexivity].
  unfold _get_request_batch_size, dict_get.
  destruct (request !! "text") as [[| | | | |l|l]|]; try reflexivity.
  all: destruct (request !! "input_ids") as [[| | | |[|a r]|[|x l]|l]|];
    try reflexivity.
  all: cbn [py_getitem0 result_bind py_len length]; reflexivity.
Qed.

(** C3, as stated, fails: a first element that is a float ([1.5]) is a
    scalar, yet the batch size is the length of [input_ids]. *)
Lemma batch_size_scalar_counterexample :
  ~ batch_size_as_specified {[ "input_ids" := PList [PFloat 15 (-1); PFloat 25 (-1)] ]}.
Proof.
  intros H. specialize (H None eq_refl). vm_compute in H. discriminate H.
Qed.

(** ** Administrative fan-out *)

Lemma responses_of_Responded (rs : list response) :
  responses_of (map Responded rs) = Ok rs.
Proof.
  induction rs as [|r rs IH]; [reflexivity|].
  cbn [map responses_of]. rewrite IH. reflexivity.
Qed.

(** A broadcast is one suspension on the requests to all servers; resumed, it
    finishes at once without touching the state. *)
Lemma broadcast_shape (route okm failm : string) (s : state) :
  exists k,
    broadcast route okm failm s =
      Await s (broadcast_requests route (load_balancer s)) k /\
    forall outs s',
      k outs s' =
        Done s'
          (result_bind (responses_of outs) (fun rs =>
             Ok (admin_result (all_200 rs)
                   (if all_200 rs then okm else failm)))).
Proof.
  unfold broadcast, gather, get_lb. unfold bind, await, get_state, ret.
  cbn [coro_bind]. fold (broadcast_requests route (load_balancer s)).
  eexists. split.
  - reflexivity.
  - intros outs s'. cbn [coro_bind].
    destruct (responses_of outs); reflexivity.
Qed.

Lemma broadcast_run (net : network) (n : nat) (route okm failm : string)
    (s : state) :
  run_from net n (broadcast route okm failm s) =
    {| final := s;
       returned :=
         result_bind
           (responses_of
              (imap (net n) (broadcast_requests route (load_balancer s))))
           (fun rs =>
              Ok (admin_result (all_200 rs) (if all_200 rs then okm else failm)));
       trace := [(s, broadcast_requests route (load_balancer s))] |}.
Proof.
  destruct (broadcast_shape route okm failm s) as (k & -> & Hk).
  cbn [run_from]. rewrite Hk. reflexivity.
Qed.

(** An operation that is not refused moves its flag, if it has one, and then
    broadcasts. *)
Lemma admin_method_open (op : admin_op) (s : state) :
  refused op (load_balancer s) = false ->
  admin_method op s =
    broadcast (admin_route op) (ok_message op) (fail_message op)
      (with_load_balancer (flipped op (load_balancer s)) s).
Proof.
  intros Href. destruct s as [lb h pos].
  destruct op; cbn in Href;
    try (apply negb_false_iff in Href);
    cbn [admin_method]; unfold start_profile, stop_profile,
      start_expert_distribution_record, stop_expert_distribution_record,
      dump_expert_distribution_record, eplb_rebalance,
      eplb_save_expert_distribution;
    try (unfold bind at 1; unfold get_lb, bind at 1, get_state, ret;
         cbn [coro_bind load_balancer]; rewrite Href; reflexivity).
  all: destruct lb; reflexivity.
Qed.

Lemma all_200_Forall (rs : list response) :
  all_200 rs = true <-> Forall (fun r => status r = 200) rs.
Proof.
  unfold all_200. rewrite forallb_forall, List.Forall_forall.
  split; intros H r Hr; specialize (H r Hr); lia.
Qed.

Lemma broadcast_requests_flipped (route : string) (op : admin_op)
    (lb : MiniLoadBalancer) :
  broadcast_requests route (flipped op lb) = broadcast_requests route lb.
Proof. destruct op; reflexivity. Qed.

(** C5.  Broadcast aggregation: when an administrative operation reaches its
    broadcast and every backend responds, the result carries
    [success = true] exactly when every response has status 200, and the
    message is the fixed success text or the fixed failure text of the
    operation according to that flag alone. *)
Theorem broadcast_aggregation
    (net : network) (s : state) (op : admin_op) (rs : list response) :
  refused op (load_balancer s) = false ->
  imap (net 0%nat) (broadcast_requests (admin_route op) (load_balancer s))
    = map Responded rs ->
  returned (run net (admin_method op) s) =
    Ok (admin_result (all_200 rs)
          (if all_200 rs then ok_message op else fail_message op)) /\
  (all_200 rs = true <-> Forall (fun r => status r = 200) rs).
Proof.
  intros Href Hnet. split; [|apply all_200_Forall].
  unfold run. rewrite (admin_method_open op s Href), broadcast_run.
  cbn [returned load_balancer with_load_balancer].
  rewrite broadcast_requests_flipped, Hnet, responses_of_Responded.
  reflexivity.
Qed.

(** Backends answering 200, 200, 503 make the dump fail. *)
Lemma broadcast_aggregation_witness :
  refused DumpRecord (load_balancer small_state) = false /\
  imap (third_fails_net 0%nat)
       (broadcast_requests (admin_route DumpRecord) (load_balancer small_state))
    = map Responded [ json_response 200 (PStr "detail");
                      json_response 200 (PStr "detail");
                      json_response 503 (PStr "detail") ] /\
  returned (run third_fails_net (admin_method DumpRecord) small_state) =
    Ok (admin_result false "Failed to dumping expert distribution").
Proof.
  split; [reflexivity|]. split; [reflexivity|].
  apply (broadcast_aggregation third_fails_net small_state DumpRecord
           [ json_response 200 (PStr "detail");
             json_response 200 (PStr "detail");
             json_response 503 (PStr "detail") ]); reflexivity.
Defined.

(** A backend that cannot be reached makes the gather raise: no verdict is
    returned. *)
Example broadcast_fault_raises :
  returned (run down_net dump_expert_distribution_record small_state) =
    Raise (ClientError "connection refused").
Proof. reflexivity. Qed.

(** Backends all answering 200 make the start of profiling succeed. *)
Example broadcast_all_200 :
  returned (run example_net start_profile small_state) =
    Ok (admin_result true "Profiling started").
Proof. reflexivity. Qed.

(** C6.  Guard short-circuit: a start while the flag is up, or a stop while
    it is down, returns [success = false] with the refusal message of the
    operation; the coroutine finishes without ever being suspended, so no
    request is sent, and the state, flag included, is what it was. *)
Theorem admin_guard_short_circuit (net : network) (s : state) (op : admin_op) :
  refused op (load_balancer s) = true ->
  guarded op = true /\
  admin_method op s = Done s (Ok (admin_result false (refusal_message op))) /\
  run net (admin_method op) s =
    {| final := s;
       returned := Ok (admin_result false (refusal_message op));
       trace := [] |}.
Proof.
  intros Href.
  assert (Hdone :
    admin_method op s = Done s (Ok (admin_result false (refusal_message op)))).
  { destruct op; cbn in Href; try discriminate Href;
      cbn [admin_method]; unfold start_profile, stop_profile,
        start_expert_distribution_record, stop_expert_distribution_record;
      unfold bind at 1; unfold get_lb, bind at 1, get_state, ret;
      cbn [coro_bind]; rewrite Href; reflexivity. }
  split; [destruct op; cbn in Href; try discriminate Href; reflexivity|].
  split; [exact Hdone|].
  unfold run. rewrite Hdone. reflexivity.
Qed.

(** Stopping the profiler before any start. *)
Lemma admin_guard_short_circuit_witness :
  refused StopProfile (load_balancer small_state) = true /\
  run down_net stop_profile small_state =
    {| final := small_state;
       returned := Ok (admin_result false "Profiling is not in progress");
       trace := [] |}.
Proof.
  split; [reflexivity|].
  apply (admin_guard_short_circuit down_net small_state StopProfile).
  reflexivity.
Defined.

(** Starting the profiler twice in a row: the second call is refused and
    sends nothing. *)
Example start_profile_twice :
  let first := run example_net start_profile small_state in
  let second := run example_net start_profile (final first) in
  returned second = Ok (admin_result false "Profiling is already in progress")
  /\ trace second = [] /\ final second = final first.
Proof. repeat split. Qed.

(** C7, as the code has it.  A guarded operation that is not refused moves
    its flag first: it is suspended on the broadcast with the flag already
    flipped, and once resumed it finishes without writing anything, whatever
    the backends answered, transport faults included. *)
Theorem admin_flag_set_before_broadcast (net : network) (s : state) (op : admin_op) :
  guarded op = true ->
  refused op (load_balancer s) = false ->
  let s1 := with_load_balancer (flipped op (load_balancer s)) s in
  flag op (load_balancer s1) = negb (flag op (load_balancer s)) /\
  (exists k,
     admin_method op s =
       Await s1 (broadcast_requests (admin_route op) (load_balancer s)) k /\
     forall outs s', exists r, k outs s' = Done s' r) /\
  trace (run net (admin_method op) s) =
    [(s1, broadcast_requests (admin_route op) (load_balancer s))] /\
  final (run net (admin_method op) s) = s1.
Proof.
  intros Hg Href s1. split; [|split; [|split]].
  - destruct op; cbn in Hg, Href |- *; try discriminate Hg;
      try (apply negb_false_iff in Href); rewrite Href; reflexivity.
  - rewrite (admin_method_open op s Href). fold s1.
    destruct (broadcast_shape (admin_route op) (ok_message op)
                (fail_message op) s1) as (k & Hk & Hres).
    exists k. split.
    + rewrite Hk. subst s1. cbn [load_balancer with_load_balancer].
      rewrite broadcast_requests_flipped. reflexivity.
    + intros outs s'. rewrite Hres. eexists. reflexivity.
  - unfold run. rewrite (admin_method_open op s Href), broadcast_run.
    fold s1. cbn [trace]. subst s1. cbn [load_balancer with_load_balancer].
    rewrite broadcast_requests_flipped. reflexivity.
  - unfold run. rewrite (admin_method_open op s Href), broadcast_run.
    reflexivity.
Qed.

(** Starting the profiler while every backend is unreachable: the call
    raises, and the flag is up all the same. *)
Lemma admin_flag_set_before_broadcast_witness :
  guarded StartProfile = true /\
  refused StartProfile (load_balancer small_state) = false /\
  profiling (load_balancer (final (run down_net start_profile small_state)))
    = true /\
  returned (run down_net start_profile small_state) =
    Raise (ClientError "connection refused").
Proof.
  split; [reflexivity|]. split; [reflexivity|]. split; [|reflexivity].
  pose proof (admin_flag_set_before_broadcast down_net small_state StartProfile
                eq_refl eq_refl) as (_ & _ & _ & Hfinal).
  change (admin_method StartProfile) with start_profile in Hfinal.
  rewrite Hfinal. reflexivity.
Defined.

(** C7, as stated, fails: while [start_profile] is waiting for the backends
    the flag is already up. *)
Lemma admin_flag_order_counterexample :
  ~ flag_kept_until_broadcast_completes example_net StartProfile small_state.
Proof.
  intros H.
  specialize (H _ _ (or_introl eq_refl)). discriminate H.
Qed.

(** ** Dual dispatch *)



(** A prefill leg that fails makes [generate] raise, whatever the decode leg
    answered. *)
Example generate_prefill_fault :
  returned
    (run (fun _ i _ =>
            match i with
            | O => Failed "connection refused"
            | _ => Responded (json_response 200 (PStr "decode"))
            end)
         (generate 0%nat "http://p0:30000" "http://d0:30001" "generate")
         (example_state ∅)) =
    Raise (ClientError "connection refused").
Proof. reflexivity. Qed.

(** ** The models proxy *)

(** C8, what the code does.  When the first prefill server answers
    [GET /v1/models] with a status other than 200, the [HTTPException]
    carrying that status is raised inside the [try] block, caught by its
    [except Exception] clause and replaced by one with status 500: the status
    of the backend reaches the client only inside the detail text. *)
Theorem get_models_masks_backend_status
    (net : network) (s : state) (server : string) (r : response) :
  py_index (prefill_servers (load_balancer s)) 0 = Ok server ->
  net 0%nat 0%nat (GET (server ++ "/v1/models")) = Responded r ->
  status r <> 200 ->
  returned (run net get_models s) =
    Raise (HTTPException 500
             (StrOf (HTTPException (status r)
                       (PrefillServerErrorStatus (status r))))).
Proof.
  intros Hserver Hnet Hstatus.
  unfold run, get_models, try_except, gather, get_lb.
  unfold bind, await, get_state, ret. cbn [coro_bind].
  rewrite Hserver. cbn [lift]. unfold ret.
  cbn [coro_bind coro_catch run_from imap]. rewrite Hnet.
  cbn [responses_of result_bind lift]. unfold ret. cbn [coro_bind].
  destruct (Z.eqb_spec (status r) 200) as [Heq|_]; [contradiction|].
  reflexivity.
Qed.

(** The first prefill server answers 404: the client gets 500. *)
Lemma get_models_masks_backend_status_witness :
  returned (run (status_net 404) get_models (example_state ∅)) =
    Raise (HTTPException 500
             (StrOf (HTTPException 404 (PrefillServerErrorStatus 404)))).
Proof.
  apply (get_models_masks_backend_status (status_net 404) (example_state ∅)
           "http://p0:30000" (json_response 404 (PStr "detail")));
    [reflexivity|reflexivity|discriminate].
Defined.

(** The other two cases of the proxy: a 200 passes its body on, a transport
    fault becomes a 500. *)
Example get_models_ok :
  returned (run example_net get_models (example_state ∅)) =
    Ok (ORJSONResponse (PStr "done") 200).
Proof. reflexivity. Qed.

Example get_models_fault :
  returned (run down_net get_models (example_state ∅)) =
    Raise (HTTPException 500 (StrOf (ClientError "connection refused"))).
Proof. reflexivity. Qed.

Lemma select_pair_round_robin_fairness_witness :
  exists s' calls,
    select_pair_calls example_entropy 5 (example_state ∅) = Done s' (Ok calls) /\
    length calls = 5%nat /\
    (forall i : Z, 0 <= i < 2 ->
       times_chosen (map fst calls) i = 5 / 2 \/
       times_chosen (map fst calls) i = ceil_div 5 2).
Proof.
  destruct (select_pair_round_robin_fairness example_entropy (example_state ∅)
              5%nat 2 0 eq_refl eq_refl)
    as (s' & calls & Hrun & Hlen & _ & _ & _ & _ & Hcount);
    [lia|lia|lia|discriminate|].
  exists s', calls. split; [exact Hrun|]. split; [exact Hlen|exact Hcount].
Defined.

(** ** Running the primitives *)

Lemma run_from_bind {A B} (net : network) (c : coro A) (f : A -> M B) (n : nat) :
  run_from net n (coro_bind c f) =
    match returned (run_from net n c) with
    | Ok a =>
        let rr := run_from net (n + length (trace (run_from net n c)))
                    (f a (final (run_from net n c))) in
        {| final := final rr; returned := returned rr;
           trace := (trace (run_from net n c) ++ trace rr)%list |}
    | Raise e =>
        {| final := final (run_from net n c); returned := Raise e;
           trace := trace (run_from net n c) |}
    end.
Proof.
  revert n. induction c as [s [a|e]|s reqs k IH]; intros n.
  - cbn. rewrite Nat.add_0_r. destruct (run_from net n (f a s)); reflexivity.
  - reflexivity.
  - cbn [coro_bind run_from final returned trace]. rewrite IH.
    destruct (returned (run_from net (S n) (k (imap (net n) reqs) s))).
    + cbn [final returned trace length].
      rewrite <- Nat.add_succ_comm. reflexivity.
    + reflexivity.
Qed.

Lemma lift_Ok {A} (a : A) (s : state) : lift (Ok a) s = Done s (Ok a).
Proof. reflexivity. Qed.

Lemma lift_Raise {A} (e : exn) (s : state) : lift (@Raise A e) s = Done s (Raise e).
Proof. reflexivity. Qed.

Lemma deref_run (r : ref) (s : state) :
  deref r s = Done s (Ok (default ∅ (heap s !! r))).
Proof. reflexivity. Qed.

Lemma dict_copy_run (r : ref) (d : dict) (s : state) :
  heap s !! r = Some d ->
  dict_copy r s = Done (with_heap (heap s ++ [d]) s) (Ok (length (heap s))).
Proof.
  intros H. unfold dict_copy. rewrite (bind_Done _ _ _ _ _ (deref_run r s)).
  rewrite H. reflexivity.
Qed.

Lemma heap_update_run (r : ref) (kvs : list (string * pyval)) (s : state) :
  heap_update r kvs s =
    Done (with_heap (<[r := dict_update (default ∅ (heap s !! r)) kvs]> (heap s)) s)
         (Ok tt).
Proof. reflexivity. Qed.

Lemma generate_bootstrap_room_run entropy (s : state) :
  _generate_bootstrap_room entropy s =
    Done (with_rng_pos (S (rng_pos s)) s)
         (Ok (room_of_draw (entropy (rng_pos s)))).
Proof. reflexivity. Qed.

Lemma rooms_from_S entropy (pos n : nat) :
  rooms_from entropy pos (S n) =
    room_of_draw (entropy pos) :: rooms_from entropy (S pos) n.
Proof.
  unfold rooms_from. cbn [seq map]. rewrite Nat.add_0_r. f_equal.
  rewrite <- seq_shift, map_map. apply map_ext. intros i.
  rewrite Nat.add_succ_r. reflexivity.
Qed.

Lemma generate_rooms_run entropy (n : nat) (s : state) :
  replicateM n (_generate_bootstrap_room entropy) s =
    Done (with_rng_pos (rng_pos s + n) s)
         (Ok (rooms_from entropy (rng_pos s) n)).
Proof.
  revert s. induction n as [|n IH]; intros s.
  - destruct s as [lb h pos]. cbn. rewrite Nat.add_0_r. reflexivity.
  - cbn [replicateM].
    rewrite (bind_Done _ _ _ _ _ (generate_bootstrap_room_run entropy s)).
    rewrite (bind_Done _ _ _ _ _ (IH _)).
    rewrite rooms_from_S. destruct s as [lb h pos]. cbn.
    rewrite Nat.add_succ_r. reflexivity.
Qed.

(** ** Bootstrap injection *)

Lemma heap_fresh_lookup (h : list dict) (d : dict) :
  (h ++ [d])%list !! length h = Some d.
Proof. apply list_lookup_middle. reflexivity. Qed.

Lemma heap_fresh_insert (h : list dict) (d d' : dict) :
  <[length h := d']> (h ++ [d])%list = (h ++ [d'])%list.
Proof.
  rewrite insert_app_r_alt by lia. rewrite Nat.sub_diag. reflexivity.
Qed.

(** The injection of [/generate], whatever the body: the copy is a new
    object after the existing ones; when the batch size is defined the copy
    receives the three fields, otherwise the exception of the batch size
    comes out.  Either way the coroutine is finished. *)
Lemma inject_generate_run entropy hostname_of (s : state) (r : ref) (d : dict)
    (prefill_server : string) (port : Z) :
  heap s !! r = Some d ->
  inject_generate_bootstrap entropy hostname_of r prefill_server port s =
    match _get_request_batch_size d with
    | Ok b =>
        Done {| load_balancer := load_balancer s;
                heap := (heap s ++
                  [injected d
                     (replicated b (hostname hostname_of prefill_server))
                     (replicated b (PInt port))
                     (rooms_field entropy (rng_pos s) b)])%list;
                rng_pos := rng_pos s + match b with None => 1 | Some n => n end |}
             (Ok (length (heap s)))
    | Raise e => Done (with_heap (heap s ++ [d]) s) (Raise e)
    end.
Proof.
  intros Hr. unfold inject_generate_bootstrap.
  rewrite (bind_Done _ _ _ _ _ (dict_copy_run r d s Hr)).
  rewrite (bind_Done _ _ _ _ _ (deref_run _ _)).
  cbn [heap with_heap]. rewrite heap_fresh_lookup. cbn [from_option id].
  destruct (_get_request_batch_size d) as [[n|]|e].
  - rewrite (bind_Done _ _ _ _ _ (lift_Ok _ _)).
    unfold bind at 1.
    rewrite (bind_Done _ _ _ _ _ (generate_rooms_run entropy n _)).
    rewrite heap_update_run. cbn [coro_bind].
    cbn [heap with_heap with_rng_pos]. rewrite heap_fresh_lookup.
    cbn [from_option id dict_update]. rewrite heap_fresh_insert. reflexivity.
  - rewrite (bind_Done _ _ _ _ _ (lift_Ok _ _)).
    unfold bind at 1.
    rewrite (bind_Done _ _ _ _ _ (generate_bootstrap_room_run entropy _)).
    rewrite heap_update_run. cbn [coro_bind].
    cbn [heap with_heap with_rng_pos]. rewrite heap_fresh_lookup.
    cbn [from_option id dict_update]. rewrite heap_fresh_insert.
    cbn [rng_pos load_balancer]. rewrite Nat.add_1_r. reflexivity.
  - rewrite (bind_Raise _ _ _ _ _ (lift_Raise _ _)). reflexivity.
Qed.

Lemma random_randint_room_run entropy (s : state) :
  random_randint entropy 0 (2 ^ 63 - 1) s =
    Done (with_rng_pos (S (rng_pos s)) s)
         (Ok (room_of_draw (entropy (rng_pos s)))).
Proof. reflexivity. Qed.

(** The injection of [/v1/chat/completions] never fails and never waits. *)
Lemma inject_completion_run entropy hostname_of (s : state) (r : ref) (d : dict)
    (prefill_server : string) (port : Z) :
  heap s !! r = Some d ->
  exists s',
    inject_completion_bootstrap entropy hostname_of r prefill_server port s =
      Done s' (Ok (length (heap s))) /\
    load_balancer s' = load_balancer s /\
    heap s' =
      (heap s ++
         [injected d (hostname hostname_of prefill_server) (PInt port)
            (completion_room entropy (rng_pos s) d)])%list.
Proof.
  intros Hr. unfold inject_completion_bootstrap.
  rewrite (bind_Done _ _ _ _ _ (dict_copy_run r d s Hr)).
  rewrite (bind_Done _ _ _ _ _ (deref_run _ _)).
  cbn [heap with_heap]. rewrite heap_fresh_lookup. cbn [from_option id].
  unfold completion_room.
  destruct (dict_get_default d "req_id" PNone) eqn:Hreq.
  1: rewrite (bind_Done _ _ _ _ _
                (bind_Done _ _ _ _ _ (random_randint_room_run entropy _))).
  2-7: rewrite (bind_Done _ _ _ _ _ eq_refl).
  all: unfold bind at 1; rewrite heap_update_run; cbn [coro_bind];
    cbn [heap with_heap with_rng_pos]; rewrite heap_fresh_lookup;
    cbn [from_option id dict_update]; rewrite heap_fresh_insert;
    eexists; split; [reflexivity|]; split; reflexivity.
Qed.

(** ** Dispatching the prepared request *)

(** Serving the dispatch, for any behaviour of the network: the state is left
    as it was, and the requests sent are the two legs carrying the prepared
    body, followed in streaming mode by the release of the prefill
    response. *)
Lemma serve_dispatch_run (net : network) (n : nat) (s : state)
    (r mr : ref) (prefill_server decode_server endpoint : string) (body : dict) :
  heap s !! mr = Some body ->
  assert_endpoint endpoint = Ok tt ->
  let rr :=
    run_from net n
      (serve (dispatch r mr prefill_server decode_server endpoint) s) in
  final rr = s /\
  exists rest,
    trace rr = (s, two_legs body prefill_server decode_server endpoint) :: rest /\
    (rest = [] \/ rest = [(s, [RELEASE (prefill_server ++ "/" ++ endpoint)])]).
Proof.
  intros Hmr Hend.
  unfold serve, dispatch, generate, generate_stream, stream_results, gather, deref.
  unfold bind, await, get_state, ret, raise. cbn [coro_bind].
  destruct (truthy _); rewrite Hend; cbn [lift]; unfold ret;
    cbn [coro_bind run_from final returned trace];
    rewrite Hmr; cbn [from_option id imap two_legs compose].
  - destruct (net n 0%nat _) as [p|?]; destruct (net n 1%nat _) as [d|?];
      cbn [responses_of result_bind coro_bind run_from final returned trace];
      (split; [reflexivity|]); eexists; (split; [reflexivity|]); auto.
  - destruct (net n 0%nat _) as [p|?]; destruct (net n 1%nat _) as [d|?];
      cbn [responses_of result_bind lift coro_bind run_from final returned trace];
      unfold ret, raise;
      cbn [responses_of result_bind lift coro_bind run_from final returned trace];
      try (destruct (response_json d));
      cbn [responses_of result_bind lift coro_bind run_from final returned trace];
      unfold ret, raise;
      cbn [responses_of result_bind lift coro_bind run_from final returned trace];
      (split; [reflexivity|]); eexists; (split; [reflexivity|]); auto.
Qed.

(** ** The two handlers *)

(** [select_pair] never waits and never touches the heap. *)
Lemma select_pair_total entropy (s : state) :
  exists s' res, select_pair entropy s = Done s' res /\ heap s' = heap s.
Proof.
  unfold select_pair, get_lb, modify_lb.
  unfold bind, get_state, put_state, ret. cbn [coro_bind].
  destruct (py_index (prefill_configs (load_balancer s)) _) as [cfg|e];
    cbn [lift]; unfold ret, raise; cbn [coro_bind];
    [|eexists _, _; split; reflexivity].
  destruct (py_mod _ _) as [next|e];
    cbn [lift]; unfold ret, raise; cbn [coro_bind];
    [|eexists _, _; split; reflexivity].
  cbn [load_balancer with_load_balancer decode_servers set_round_robin_counter].
  destruct (decode_servers (load_balancer s)) as [|a l];
    [eexists _, _; split; reflexivity|].
  unfold random_choice, draw.
  unfold bind, get_state, put_state, ret. cbn [coro_bind].
  destruct (py_index (a :: l) _) as [x|e];
    cbn [lift]; unfold ret, raise; cbn [coro_bind];
    eexists _, _; split; reflexivity.
Qed.

(** Serving [/generate] once the pair is selected. *)
Lemma serve_generate_after_select entropy hostname_of (net : network)
    (s s0 : state) (r : ref) (d : dict)
    (prefill_server decode_server : string) (port : Z) :
  select_pair entropy s = Done s0 (Ok (prefill_server, port, decode_server)) ->
  heap s0 !! r = Some d ->
  let rr := run net (serve (handle_generate_request entropy hostname_of r)) s in
  match _get_request_batch_size d with
  | Ok b =>
      let body :=
        injected d (replicated b (hostname hostname_of prefill_server))
          (replicated b (PInt port)) (rooms_field entropy (rng_pos s0) b) in
      exists rest,
        heap (final rr) = (heap s0 ++ [body])%list /\
        trace rr =
          (final rr, two_legs body prefill_server decode_server "generate")
            :: rest /\
        (rest = [] \/
         rest = [(final rr, [RELEASE (prefill_server ++ "/" ++ "generate")])])
  | Raise e =>
      rr = {| final := with_heap (heap s0 ++ [d]) s0;
              returned := Raise e; trace := [] |}
  end.
Proof.
  intros Hsel Hr. unfold run, serve, handle_generate_request, bind.
  rewrite Hsel. cbn [coro_bind].
  rewrite (inject_generate_run entropy hostname_of s0 r d _ _ Hr).
  destruct (_get_request_batch_size d) as [b|e]; [|reflexivity].
  cbn [coro_bind].
  match goal with
  | |- context [dispatch r ?mr ?p ?dc ?ep ?s1] =>
      pose proof (serve_dispatch_run net 0 s1 r mr p dc ep _
                    (heap_fresh_lookup _ _) eq_refl) as (Hfin & rest & Htr & Hrest)
  end.
  unfold serve, bind in Hfin, Htr. cbn [heap] in Htr.
  exists rest. rewrite Hfin, Htr. cbn [heap].
  split; [reflexivity|]. split; [reflexivity|exact Hrest].
Qed.

(** Serving [/v1/chat/completions] once the pair is selected. *)
Lemma serve_completion_after_select entropy hostname_of (net : network)
    (s s0 : state) (r : ref) (d : dict)
    (prefill_server decode_server : string) (port : Z) :
  select_pair entropy s = Done s0 (Ok (prefill_server, port, decode_server)) ->
  heap s0 !! r = Some d ->
  let rr := run net (serve (handle_completion_request entropy hostname_of r)) s in
  let body :=
    injected d (hostname hostname_of prefill_server) (PInt port)
      (completion_room entropy (rng_pos s0) d) in
  exists rest,
    heap (final rr) = (heap s0 ++ [body])%list /\
    trace rr =
      (final rr,
       two_legs body prefill_server decode_server "v1/chat/completions")
        :: rest /\
    (rest = [] \/
     rest = [(final rr,
              [RELEASE (prefill_server ++ "/" ++ "v1/chat/completions")])]).
Proof.
  intros Hsel Hr. unfold run, serve, handle_completion_request, bind.
  rewrite Hsel. cbn [coro_bind].
  destruct (inject_completion_run entropy hostname_of s0 r d
              prefill_server port Hr) as (s1 & -> & _ & Hheap).
  cbn [coro_bind].
  assert (Hmr : heap s1 !! length (heap s0) = Some
    (injected d (hostname hostname_of prefill_server) (PInt port)
       (completion_room entropy (rng_pos s0) d))).
  { rewrite Hheap. apply heap_fresh_lookup. }
  pose proof (serve_dispatch_run net 0 s1 r (length (heap s0)) prefill_server
                decode_server "v1/chat/completions" _ Hmr eq_refl)
    as (Hfin & rest & Htr & Hrest).
  unfold serve, bind in Hfin, Htr.
  exists rest. rewrite Hfin, Htr.
  split; [exact Hheap|]. split; [reflexivity|exact Hrest].
Qed.

Lemma injected_lookup (d : dict) (host port room : pyval) :
  injected d host port room !! "bootstrap_host" = Some host /\
  injected d host port room !! "bootstrap_port" = Some port /\
  injected d host port room !! "bootstrap_room" = Some room /\
  forall key : string,
    key <> "bootstrap_host" -> key <> "bootstrap_port" ->
    key <> "bootstrap_room" ->
    injected d host port room !! key = d !! key.
Proof.
  unfold injected. repeat split.
  - rewrite lookup_insert_ne by discriminate.
    rewrite lookup_insert_ne by discriminate. apply lookup_insert_eq.
  - rewrite lookup_insert_ne by discriminate. apply lookup_insert_eq.
  - apply lookup_insert_eq.
  - intros key Hh Hp Hr.
    rewrite !lookup_insert_ne by congruence. reflexivity.
Qed.

Lemma room_of_draw_range (r : Z) : 0 <= room_of_draw r <= 2 ^ 63 - 1.
Proof.
  unfold room_of_draw.
  pose proof (Z.mod_pos_bound r (2 ^ 63) ltac:(reflexivity)). lia.
Qed.

Lemma rooms_from_length entropy (pos n : nat) :
  length (rooms_from entropy pos n) = n.
Proof. unfold rooms_from. rewrite length_map, length_seq. reflexivity. Qed.

Lemma rooms_from_lookup entropy (n pos i : nat) :
  (i < n)%nat ->
  rooms_from entropy pos n !! i = Some (room_of_draw (entropy (pos + i)%nat)).
Proof.
  revert pos i. induction n as [|n IH]; intros pos i Hi; [lia|].
  rewrite rooms_from_S. destruct i as [|i].
  - rewrite Nat.add_0_r. reflexivity.
  - cbn [lookup list_lookup]. rewrite IH by lia.
    rewrite Nat.add_succ_r. reflexivity.
Qed.

Lemma rooms_from_range entropy (pos n : nat) :
  Forall (fun room => 0 <= room <= 2 ^ 63 - 1) (rooms_from entropy pos n).
Proof.
  unfold rooms_from. apply List.Forall_forall. intros room Hin.
  apply in_map_iff in Hin as (i & <- & _). apply room_of_draw_range.
Qed.

Lemma requests_sent_cons {A} (rr : run_result A) (s : state)
    (reqs : list request) (rest : list (state * list request)) :
  trace rr = (s, reqs) :: rest ->
  requests_sent rr = (reqs ++ concat (map snd rest))%list.
Proof. intros H. unfold requests_sent. rewrite H. reflexivity. Qed.

(** C4.  Shape of the injected fields on [/generate].  With the cursor on
    prefill server [cfg], a decode pool that is not empty and a body whose
    batch size is defined, the requests forwarded start with the two legs to
    [cfg] and to a decode server, both carrying a body in which: for batch
    size null, the host field is the host name of the URL of [cfg], the port
    field its bootstrap port, and the room field one integer between 0 and
    2^63 - 1 made of one draw; for batch size [n], the host and port fields
    are those values [n] times over, and the room field is a list of [n]
    integers in that range, the [i]-th made of the [i]-th draw. *)
Theorem bootstrap_injection_shape
    (entropy : nat -> Z) (hostname_of : string -> option string)
    (net : network) (s : state) (r : ref) (d : dict)
    (cfg : PrefillConfig) (b : option nat) :
  heap s !! r = Some d ->
  0 <= round_robin_counter (load_balancer s)
    < Z.of_nat (length (prefill_configs (load_balancer s))) ->
  prefill_configs (load_balancer s)
    !! Z.to_nat (round_robin_counter (load_balancer s)) = Some cfg ->
  decode_servers (load_balancer s) <> [] ->
  _get_request_batch_size d = Ok b ->
  let host := hostname hostname_of (url cfg) in
  let port := PInt (bootstrap_port cfg) in
  let pos := S (rng_pos s) in
  exists body decode_server rest,
    decode_server ∈ decode_servers (load_balancer s) /\
    requests_sent
      (run net (serve (handle_generate_request entropy hostname_of r)) s) =
      (two_legs body (url cfg) decode_server "generate" ++ rest)%list /\
    match b with
    | None =>
        body !! "bootstrap_host" = Some host /\
        body !! "bootstrap_port" = Some port /\
        exists room,
          body !! "bootstrap_room" = Some (PInt room) /\
          0 <= room <= 2 ^ 63 - 1 /\
          room = room_of_draw (entropy pos)
    | Some n =>
        body !! "bootstrap_host" = Some (PList (repeat host n)) /\
        body !! "bootstrap_port" = Some (PList (repeat port n)) /\
        exists rooms,
          body !! "bootstrap_room" = Some (PList (map PInt rooms)) /\
          length rooms = n /\
          Forall (fun room => 0 <= room <= 2 ^ 63 - 1) rooms /\
          forall i : nat, (i < n)%nat ->
            rooms !! i = Some (room_of_draw (entropy (pos + i)%nat))
    end.
Proof.
  intros Hr Hc Hcfg Hdec Hb host port pos.
  destruct (select_pair_step entropy s Hc Hdec)
    as (cfg' & dec & Hcfg' & Hdec' & Hsel).
  rewrite Hcfg in Hcfg'. injection Hcfg' as <-.
  pose proof (serve_generate_after_select entropy hostname_of net s _ r d
                _ _ _ Hsel Hr) as Hrun.
  cbv zeta in Hrun. rewrite Hb in Hrun.
  destruct Hrun as (rest & _ & Htr & _).
  cbn [rng_pos with_rng_pos] in Htr. fold pos host port in Htr.
  eexists _, dec, _. split; [exact Hdec'|].
  split; [apply (requests_sent_cons _ _ _ _ Htr)|].
  destruct b as [n|]; cbn [replicated rooms_field].
  - destruct (injected_lookup d (PList (repeat host n)) (PList (repeat port n))
                (PList (map PInt (rooms_from entropy pos n))))
      as (Hh & Hp & Hroom & _).
    split; [exact Hh|]. split; [exact Hp|].
    exists (rooms_from entropy pos n). split; [exact Hroom|].
    split; [apply rooms_from_length|]. split; [apply rooms_from_range|].
    intros i Hi. apply rooms_from_lookup. exact Hi.
  - destruct (injected_lookup d host port (PInt (room_of_draw (entropy pos))))
      as (Hh & Hp & Hroom & _).
    split; [exact Hh|]. split; [exact Hp|].
    exists (room_of_draw (entropy pos)). split; [exact Hroom|].
    split; [apply room_of_draw_range|reflexivity].
Qed.

(** A batch of two texts on the example balancer. *)
Lemma bootstrap_injection_shape_witness :
  _get_request_batch_size {[ "text" := PList [PStr "a"; PStr "b"] ]}
    = Ok (Some 2%nat) /\
  exists body decode_server rest,
    requests_sent
      (run example_net
         (serve (handle_generate_request example_entropy example_hostname 0%nat))
         (example_state {[ "text" := PList [PStr "a"; PStr "b"] ]})) =
      (two_legs body "http://p0:30000" decode_server "generate" ++ rest)%list /\
    body !! "bootstrap_host" = Some (PList [PStr "p0"; PStr "p0"]) /\
    body !! "bootstrap_port" = Some (PList [PInt 8998; PInt 8998]).
Proof.
  split; [reflexivity|].
  destruct (bootstrap_injection_shape example_entropy example_hostname
              example_net
              (example_state {[ "text" := PList [PStr "a"; PStr "b"] ]})
              0%nat {[ "text" := PList [PStr "a"; PStr "b"] ]}
              {| url := "http://p0:30000"; bootstrap_port := 8998 |}
              (Some 2%nat) eq_refl)
    as (body & dec & rest & _ & Hsent & Hh & Hp & _);
    [cbn; lia|reflexivity|discriminate|reflexivity|].
  exists body, dec, rest. split; [exact Hsent|]. split; [exact Hh|exact Hp].
Defined.

(** C9, as the code has it.  Once the pair is selected, the injection never
    waits for the network: it is finished as soon as it is called.  It
    returns whenever the batch size of the body is defined.  For a body
    without [text] whose [input_ids] is an empty list it raises
    [IndexError]; the handler does not catch it and ends with it before any
    request is sent, and [IndexError] is not an exception the web framework
    answers with a 4xx status. *)
Theorem injection_failure_is_index_error
    (entropy : nat -> Z) (hostname_of : string -> option string)
    (net : network) (s s0 : state) (r : ref) (d : dict)
    (prefill_server decode_server : string) (port : Z) :
  heap s !! r = Some d ->
  select_pair entropy s = Done s0 (Ok (prefill_server, port, decode_server)) ->
  (exists s1 res,
     inject_generate_bootstrap entropy hostname_of r prefill_server port s0
       = Done s1 res) /\
  (forall b, _get_request_batch_size d = Ok b ->
     exists s1 modified_request,
       inject_generate_bootstrap entropy hostname_of r prefill_server port s0
         = Done s1 (Ok modified_request)) /\
  (dict_get d "text" = PNone -> d !! "input_ids" = Some (PList []) ->
     returned (run net (handle_generate_request entropy hostname_of r) s)
       = Raise IndexError /\
     trace (run net (handle_generate_request entropy hostname_of r) s) = [] /\
     is_client_error IndexError = false).
Proof.
  intros Hr Hsel.
  assert (Hr0 : heap s0 !! r = Some d).
  { destruct (select_pair_total entropy s) as (s' & res & Hsel' & Hheap).
    rewrite Hsel in Hsel'. injection Hsel' as -> _. rewrite Hheap. exact Hr. }
  pose proof (inject_generate_run entropy hostname_of s0 r d
                prefill_server port Hr0) as Hinj.
  split; [|split].
  - rewrite Hinj. destruct (_get_request_batch_size d); eexists _, _; reflexivity.
  - intros b Hb. rewrite Hinj, Hb. eexists _, _. reflexivity.
  - intros Htext Hids.
    assert (Hb : _get_request_batch_size d = Raise IndexError).
    { unfold _get_request_batch_size. rewrite Htext.
      unfold dict_get. rewrite Hids. reflexivity. }
    rewrite Hb in Hinj.
    unfold run, handle_generate_request, bind.
    rewrite Hsel. cbn [coro_bind]. rewrite Hinj. cbn [coro_bind run_from].
    repeat split.
Qed.

(** The body with an empty [input_ids] on the example balancer. *)
Lemma injection_failure_is_index_error_witness :
  returned
    (run example_net
       (handle_generate_request example_entropy example_hostname 0%nat)
       (example_state {[ "input_ids" := PList [] ]}))
    = Raise IndexError.
Proof.
  pose proof (injection_failure_is_index_error example_entropy example_hostname
                example_net (example_state {[ "input_ids" := PList [] ]})
                _ 0%nat {[ "input_ids" := PList [] ]} _ _ _ eq_refl eq_refl)
    as (_ & _ & H).
  destruct (H eq_refl eq_refl) as (Hret & _). exact Hret.
Defined.

(** C9, as stated, fails: an empty [input_ids] ends the handler with an
    exception that is no 4xx. *)
Lemma malformed_request_counterexample :
  ~ exists e,
      returned
        (run example_net
           (handle_generate_request example_entropy example_hostname 0%nat)
           (example_state {[ "input_ids" := PList [] ]}))
        = Raise e /\
      is_client_error e = true.
Proof.
  intros (e & Hret & Hclient).
  vm_compute in Hret. injection Hret as <-. discriminate Hclient.
Qed.




(** The same caller: the forwarded body has the host name of the selected
    prefill server, not the caller's, and keeps the text. *)
Example caller_supplied_host_overwritten :
  requests_sent
    (run example_net
       (serve (handle_generate_request example_entropy example_hostname 0%nat))
       (example_state tampered_body)) =
  two_legs
    (injected tampered_body (PStr "p0") (PInt 8998) (PInt 7922))
    "http://p0:30000" "http://d1:30001" "generate".
Proof. vm_compute. reflexivity. Qed.

(** * Further properties of the code *)

(** ** Pair selection at the edges *)

Lemma py_index_nil {A} (i : Z) : py_index (@nil A) i = Raise IndexError.
Proof.
  unfold py_index. change (Z.of_nat (length (@nil A))) with 0.
  set (j := if i <? 0 then i + 0 else i).
  destruct (Z.leb_spec 0 j) as [Hlo|Hlo]; [|reflexivity].
  destruct (Z.ltb_spec j 0) as [Hhi|Hhi]; [lia|reflexivity].
Qed.

(** X1.  With an empty prefill pool [select_pair] raises [IndexError] and
    leaves everything as it was: the cursor is not moved and nothing is
    drawn. *)
Theorem select_pair_empty_prefill (entropy : nat -> Z) (s : state) :
  prefill_configs (load_balancer s) = [] ->
  select_pair entropy s = Done s (Raise IndexError).
Proof.
  intros Hnil. unfold select_pair, get_lb.
  unfold bind, get_state, ret. cbn [coro_bind].
  rewrite Hnil, py_index_nil. reflexivity.
Qed.

Lemma select_pair_empty_prefill_witness :
  select_pair example_entropy
    {| load_balancer := init [] ["http://d0:30001"]; heap := []; rng_pos := 0 |}
  = Done {| load_balancer := init [] ["http://d0:30001"]; heap := [];
            rng_pos := 0 |}
         (Raise IndexError).
Proof.
  apply (select_pair_empty_prefill example_entropy
           {| load_balancer := init [] ["http://d0:30001"]; heap := [];
              rng_pos := 0 |}).
  reflexivity.
Defined.

(** X2.  With an empty decode pool and the cursor inside the prefill pool,
    [select_pair] raises [IndexError] after it has moved the cursor: the
    failed call uses up a turn of the round robin, and draws nothing. *)
Theorem select_pair_empty_decode (entropy : nat -> Z) (s : state) :
  0 <= round_robin_counter (load_balancer s)
    < Z.of_nat (length (prefill_configs (load_balancer s))) ->
  decode_servers (load_balancer s) = [] ->
  select_pair entropy s =
    Done (with_load_balancer
            (set_round_robin_counter
               ((round_robin_counter (load_balancer s) + 1)
                  mod Z.of_nat (length (prefill_configs (load_balancer s))))
               (load_balancer s)) s)
         (Raise IndexError).
Proof.
  intros Hc Hdec.
  destruct (py_index_in_range _ _ Hc) as (cfg & _ & Hidx).
  unfold select_pair, get_lb, modify_lb.
  unfold bind, get_state, put_state, ret. cbn [coro_bind].
  rewrite Hidx, py_mod_pos by lia.
  cbn [lift]. unfold ret. cbn [coro_bind].
  cbn [load_balancer with_load_balancer decode_servers set_round_robin_counter].
  rewrite Hdec. reflexivity.
Qed.

Lemma select_pair_empty_decode_witness :
  exists s',
    select_pair example_entropy
      {| load_balancer := init example_configs []; heap := []; rng_pos := 0 |}
    = Done s' (Raise IndexError) /\
    round_robin_counter (load_balancer s') = 1 /\ rng_pos s' = O.
Proof.
  eexists. split.
  - apply (select_pair_empty_decode example_entropy
             {| load_balancer := init example_configs []; heap := [];
                rng_pos := 0 |}); [cbn; lia|reflexivity].
  - split; reflexivity.
Defined.

(** X3.  A full round: as many calls as there are prefill servers choose
    every server exactly once and bring the cursor back to where it was. *)
Theorem select_pair_full_round (entropy : nat -> Z) (s : state) :
  0 <= round_robin_counter (load_balancer s)
    < Z.of_nat (length (prefill_configs (load_balancer s))) ->
  decode_servers (load_balancer s) <> [] ->
  exists s' calls,
    select_pair_calls entropy (length (prefill_configs (load_balancer s))) s
      = Done s' (Ok calls) /\
    round_robin_counter (load_balancer s')
      = round_robin_counter (load_balancer s) /\
    forall i : Z,
      0 <= i < Z.of_nat (length (prefill_configs (load_balancer s))) ->
      times_chosen (map fst calls) i = 1.
Proof.
  intros Hc Hdec.
  destruct (select_pair_calls_run entropy
              (length (prefill_configs (load_balancer s))) s Hc Hdec)
    as (s' & calls & Hrun & Hcur & _ & Hfin).
  set (P := Z.of_nat (length (prefill_configs (load_balancer s)))) in *.
  exists s', calls. split; [exact Hrun|]. split.
  - rewrite Hfin.
    replace (round_robin_counter (load_balancer s) + P)
      with (round_robin_counter (load_balancer s) + 1 * P) by lia.
    rewrite Z.mod_add by lia. apply Z.mod_small. exact Hc.
  - intros i Hi. rewrite Hcur, times_chosen_closed_form by lia.
    fold P.
    pose proof (Z.mod_pos_bound (i - round_robin_counter (load_balancer s)) P
                  ltac:(lia)) as Hd.
    set (d := (i - round_robin_counter (load_balancer s)) mod P) in *.
    replace (P + P - 1 - d) with ((P - 1 - d) + 1 * P) by lia.
    rewrite Z.div_add by lia. rewrite Z.div_small by lia. reflexivity.
Qed.

Lemma select_pair_full_round_witness :
  exists s' calls,
    select_pair_calls example_entropy 2 (example_state ∅) = Done s' (Ok calls) /\
    round_robin_counter (load_balancer s') = 0 /\
    times_chosen (map fst calls) 1 = 1.
Proof.
  destruct (select_pair_full_round example_entropy (example_state ∅))
    as (s' & calls & Hrun & Hcur & Hcount); [cbn; lia|discriminate|].
  exists s', calls. split; [exact Hrun|]. split; [exact Hcur|].
  apply Hcount. cbn. lia.
Defined.

(** ** The administrative state machine *)

Lemma admin_method_refused (op : admin_op) (s : state) :
  refused op (load_balancer s) = true ->
  admin_method op s = Done s (Ok (admin_result false (refusal_message op))).
Proof.
  intros Href.
  destruct op; cbn in Href; try discriminate Href;
    cbn [admin_method]; unfold start_profile, stop_profile,
      start_expert_distribution_record, stop_expert_distribution_record;
    unfold bind at 1; unfold get_lb, bind at 1, get_state, ret;
    cbn [coro_bind]; rewrite Href; reflexivity.
Qed.

Lemma admin_final (net : network) (op : admin_op) (s : state) :
  final (run net (admin_method op) s) =
    if refused op (load_balancer s) then s
    else with_load_balancer (flipped op (load_balancer s)) s.
Proof.
  unfold run. destruct (refused op (load_balancer s)) eqn:Href.
  - rewrite (admin_method_refused op s Href). reflexivity.
  - rewrite (admin_method_open op s Href), broadcast_run. reflexivity.
Qed.

(** X4.  Start and stop alternate.  Once a guarded operation has been let
    through, whatever the backends answered and even if the broadcast raised,
    the same operation is refused and its opposite is let through. *)
Theorem admin_start_stop_alternate (net : network) (s : state) (op : admin_op) :
  guarded op = true ->
  refused op (load_balancer s) = false ->
  refused op (load_balancer (final (run net (admin_method op) s))) = true /\
  refused (opposite op)
    (load_balancer (final (run net (admin_method op) s))) = false.
Proof.
  intros Hg Href. rewrite admin_final, Href.
  destruct op; cbn in Hg, Href |- *; try discriminate Hg; split; reflexivity.
Qed.

Lemma admin_start_stop_alternate_witness :
  refused StartRecord
    (load_balancer
       (final (run down_net start_expert_distribution_record small_state)))
    = true /\
  refused StopRecord
    (load_balancer
       (final (run down_net start_expert_distribution_record small_state)))
    = false.
Proof.
  apply (admin_start_stop_alternate down_net small_state StartRecord);
    reflexivity.
Defined.

(** X5.  What an administrative operation leaves alone: the pools, the
    cursor, the objects in memory and the random draws are never touched;
    the profiling flag is touched by the two profiling operations only, the
    recording flag by the two recording operations only. *)
Theorem admin_frame (net : network) (s : state) (op : admin_op) :
  let s' := final (run net (admin_method op) s) in
  prefill_configs (load_balancer s') = prefill_configs (load_balancer s) /\
  prefill_servers (load_balancer s') = prefill_servers (load_balancer s) /\
  decode_servers (load_balancer s') = decode_servers (load_balancer s) /\
  round_robin_counter (load_balancer s')
    = round_robin_counter (load_balancer s) /\
  heap s' = heap s /\
  rng_pos s' = rng_pos s /\
  (op <> StartProfile -> op <> StopProfile ->
   profiling (load_balancer s') = profiling (load_balancer s)) /\
  (op <> StartRecord -> op <> StopRecord ->
   recording (load_balancer s') = recording (load_balancer s)).
Proof.
  intros s'. subst s'. rewrite admin_final.
  destruct (refused op (load_balancer s)).
  - repeat split; reflexivity.
  - destruct op; cbn; repeat split; try reflexivity; intros; congruence.
Qed.

(** ** Broadcasts that meet a fault *)




(** ** Dual dispatch at the edges *)

(** X7.  An endpoint that starts with a slash fails the assertion of
    [generate] and of [generate_stream] before anything is sent; the state is
    what it was. *)
Theorem dispatch_rejects_leading_slash
    (net : network) (s : state) (modified_request : ref)
    (prefill_server decode_server rest : string) :
  run net
    (generate modified_request prefill_server decode_server
       (String "/"%char rest)) s
  = {| final := s; returned := Raise AssertionError; trace := [] |} /\
  run net
    (generate_stream modified_request prefill_server decode_server
       (String "/"%char rest)) s
  = {| final := s; returned := Raise AssertionError; trace := [] |}.
Proof. split; reflexivity. Qed.




(** ** Streaming is decided by the caller's flag and is lazy *)

Lemma dispatch_streaming (s : state) (r mr : ref) (d : dict)
    (prefill_server decode_server endpoint : string) :
  heap s !! r = Some d ->
  truthy (dict_get_default d "stream" (PBool false)) = true ->
  assert_endpoint endpoint = Ok tt ->
  dispatch r mr prefill_server decode_server endpoint s =
    Done s (Ok (StreamingResponse
                  (stream_results mr prefill_server decode_server endpoint))).
Proof.
  intros Hr Hstream Hend. unfold dispatch, deref, generate_stream.
  unfold bind, get_state, ret. cbn [coro_bind].
  rewrite Hr. cbn [from_option id]. rewrite Hstream, Hend. reflexivity.
Qed.

(** X10.  A request whose [stream] field is true in Python's sense (a
    non-zero number or a non-empty string as well as [true]) makes either
    handler lazy: whatever it returns, the handler itself sends nothing; the
    two legs are only sent when the streaming body is run. *)
Theorem streaming_handlers_send_nothing
    (entropy : nat -> Z) (hostname_of : string -> option string)
    (net : network) (s : state) (r : ref) (d : dict) :
  heap s !! r = Some d ->
  truthy (dict_get_default d "stream" (PBool false)) = true ->
  trace (run net (handle_generate_request entropy hostname_of r) s) = [] /\
  trace (run net (handle_completion_request entropy hostname_of r) s) = [].
Proof.
  intros Hr Hstream.
  destruct (select_pair_total entropy s) as (s0 & res & Hsel & Hheap).
  assert (Hr0 : heap s0 !! r = Some d) by (rewrite Hheap; exact Hr).
  assert (Hkeep : forall (s1 : state) (x : dict),
            heap s1 = (heap s0 ++ [x])%list -> heap s1 !! r = Some d).
  { intros s1 x ->. rewrite lookup_app_l; [exact Hr0|].
    apply lookup_lt_Some in Hr0. exact Hr0. }
  unfold run, handle_generate_request, handle_completion_request, bind.
  rewrite Hsel.
  destruct res as [[[prefill_server port] decode_server]|e];
    [|split; reflexivity].
  cbn [coro_bind]. split.
  - rewrite (inject_generate_run entropy hostname_of s0 r d _ _ Hr0).
    destruct (_get_request_batch_size d) as [b|e]; [|reflexivity].
    cbn [coro_bind].
    match goal with
    | |- context [dispatch r ?mr ?p ?dc ?ep ?s1] =>
        rewrite (dispatch_streaming s1 r mr d p dc ep
                   (Hkeep s1 _ eq_refl) Hstream eq_refl)
    end.
    reflexivity.
  - destruct (inject_completion_run entropy hostname_of s0 r d
                prefill_server port Hr0) as (s1 & -> & _ & Hh).
    cbn [coro_bind].
    rewrite (dispatch_streaming s1 r _ d prefill_server decode_server
               "v1/chat/completions" (Hkeep _ _ Hh) Hstream eq_refl).
    reflexivity.
Qed.

Lemma streaming_handlers_send_nothing_witness :
  trace
    (run example_net
       (handle_generate_request example_entropy example_hostname 0%nat)
       (example_state {[ "text" := PStr "hi"; "stream" := PInt 1 ]})) = [].
Proof.
  apply (streaming_handlers_send_nothing example_entropy example_hostname
           example_net
           (example_state {[ "text" := PStr "hi"; "stream" := PInt 1 ]})
           0%nat {[ "text" := PStr "hi"; "stream" := PInt 1 ]});
    [reflexivity|vm_compute; reflexivity].
Defined.

(** ** The models proxy, all cases *)

Lemma py_index_head {A} (x : A) (l : list A) : py_index (x :: l) 0 = Ok x.
Proof.
  destruct (py_index_in_range (x :: l) 0) as (y & Hy & ->);
    [cbn [length]; lia|].
  change ((x :: l) !! O = Some y) in Hy. injection Hy as ->. reflexivity.
Qed.

(** X11.  With a prefill pool that is not empty, [GET /v1/models] sends one
    request, to the first prefill server, and ends in one of two ways only:
    it returns the JSON body of a backend answer with status 200, with
    status 200, or it raises an [HTTPException] with status 500.  No other
    status ever reaches the client. *)
Theorem get_models_status_200_or_500
    (net : network) (s : state) (server : string) (others : list string) :
  prefill_servers (load_balancer s) = server :: others ->
  requests_sent (run net get_models s) = [GET (server ++ "/v1/models")] /\
  final (run net get_models s) = s /\
  ((exists r content,
      net 0%nat 0%nat (GET (server ++ "/v1/models")) = Responded r /\
      status r = 200 /\ json_body r = Some content /\
      returned (run net get_models s) = Ok (ORJSONResponse content 200)) \/
   (exists detail,
      returned (run net get_models s) = Raise (HTTPException 500 detail))).
Proof.
  intros Hpool.
  unfold requests_sent, run, get_models, try_except, gather, get_lb.
  unfold bind, await, get_state, ret. cbn [coro_bind].
  rewrite Hpool, py_index_head. cbn [lift]. unfold ret.
  cbn [coro_bind coro_catch run_from imap final returned trace map snd concat
       app].
  destruct (net 0%nat 0%nat (GET (server ++ "/v1/models"))) as [r|msg] eqn:Hnet;
    cbn [responses_of result_bind lift]; unfold ret, raise;
    cbn [coro_bind coro_catch run_from final returned trace].
  - destruct (Z.eqb_spec (status r) 200) as [H200|Hnot];
      cbn [negb coro_bind coro_catch run_from final returned trace].
    + unfold response_json. destruct (json_body r) as [content|] eqn:Hjson;
        cbn [lift]; unfold ret, raise;
        cbn [coro_bind coro_catch run_from final returned trace].
      * repeat split. left. exists r, content. repeat split; assumption.
      * repeat split. right. eexists. reflexivity.
    + repeat split. right. eexists. reflexivity.
  - repeat split. right. eexists. reflexivity.
Qed.

Lemma get_models_status_200_or_500_witness :
  requests_sent (run (status_net 503) get_models (example_state ∅))
    = [GET "http://p0:30000/v1/models"].
Proof.
  apply (get_models_status_200_or_500 (status_net 503) (example_state ∅)
           "http://p0:30000" ["http://p1:30000"]).
  reflexivity.
Defined.

(** X12.  With an empty prefill pool [GET /v1/models] raises [IndexError]:
    the server is picked outside the [try] block, so this is no
    [HTTPException], and nothing is sent. *)
Theorem get_models_empty_pool (net : network) (s : state) :
  prefill_servers (load_balancer s) = [] ->
  run net get_models s =
    {| final := s; returned := Raise IndexError; trace := [] |}.
Proof.
  intros Hpool. unfold run, get_models, get_lb.
  unfold bind, get_state, ret. cbn [coro_bind].
  rewrite Hpool, py_index_nil. reflexivity.
Qed.

Lemma get_models_empty_pool_witness :
  returned
    (run example_net get_models
       {| load_balancer := init [] ["http://d0:30001"]; heap := [];
          rng_pos := 0 |})
  = Raise IndexError.
Proof.
  rewrite (get_models_empty_pool example_net
             {| load_balancer := init [] ["http://d0:30001"]; heap := [];
                rng_pos := 0 |} eq_refl).
  reflexivity.
Defined.

(** ** The room of a chat completion *)

Lemma completion_room_supplied entropy (pos : nat) (d : dict) (v : pyval) :
  d !! "req_id" = Some v -> v <> PNone -> completion_room entropy pos d = v.
Proof.
  intros Hv Hne. unfold completion_room, dict_get_default. rewrite Hv.
  destruct v; congruence.
Qed.

Lemma completion_room_fresh entropy (pos : nat) (d : dict) :
  dict_get d "req_id" = PNone ->
  completion_room entropy pos d = PInt (room_of_draw (entropy pos)).
Proof.
  unfold completion_room, dict_get, dict_get_default.
  destruct (d !! "req_id") as [v|]; [intros ->|]; reflexivity.
Qed.

(** X13.  On [/v1/chat/completions] a [req_id] supplied by the caller is
    forwarded as the bootstrap room as it is, whatever kind of JSON value it
    is: it is not checked to be an integer of 63 bits.  Only without a
    [req_id] (absent or null) is the room an integer drawn between 0 and
    2^63 - 1. *)
Theorem completion_room_from_req_id
    (entropy : nat -> Z) (hostname_of : string -> option string)
    (net : network) (s : state) (r : ref) (d : dict) :
  heap s !! r = Some d ->
  0 <= round_robin_counter (load_balancer s)
    < Z.of_nat (length (prefill_configs (load_balancer s))) ->
  decode_servers (load_balancer s) <> [] ->
  exists body prefill_server decode_server rest,
    requests_sent
      (run net (serve (handle_completion_request entropy hostname_of r)) s) =
      (two_legs body prefill_server decode_server "v1/chat/completions"
         ++ rest)%list /\
    (forall v, d !! "req_id" = Some v -> v <> PNone ->
       body !! "bootstrap_room" = Some v) /\
    (dict_get d "req_id" = PNone ->
       exists room,
         body !! "bootstrap_room" = Some (PInt room) /\
         0 <= room <= 2 ^ 63 - 1).
Proof.
  intros Hr Hc Hdec.
  destruct (select_pair_step entropy s Hc Hdec)
    as (cfg & dec & _ & _ & Hsel).
  pose proof (serve_completion_after_select entropy hostname_of net s _ r d
                _ _ _ Hsel Hr) as (rest & _ & Htr & _).
  eexists _, _, _, _. split; [apply (requests_sent_cons _ _ _ _ Htr)|].
  split.
  - intros v Hv Hne. rewrite (completion_room_supplied _ _ _ _ Hv Hne).
    apply injected_lookup.
  - intros Hnone. rewrite (completion_room_fresh _ _ _ Hnone).
    eexists. split; [apply injected_lookup|apply room_of_draw_range].
Qed.

Lemma completion_room_from_req_id_witness :
  exists body prefill_server decode_server rest,
    requests_sent
      (run example_net
         (serve (handle_completion_request example_entropy example_hostname
                   0%nat))
         (example_state {[ "req_id" := PStr "abc" ]})) =
      (two_legs body prefill_server decode_server "v1/chat/completions"
         ++ rest)%list /\
    body !! "bootstrap_room" = Some (PStr "abc").
Proof.
  destruct (completion_room_from_req_id example_entropy example_hostname
              example_net (example_state {[ "req_id" := PStr "abc" ]})
              0%nat {[ "req_id" := PStr "abc" ]} eq_refl)
    as (body & p & dc & rest & Hsent & Hid & _);
    [cbn; lia|discriminate|].
  exists body, p, dc, rest. split; [exact Hsent|].
  apply Hid; [reflexivity|discriminate].
Defined.

(** ** The probes *)

Lemma imap_all_responded (f : nat -> request -> outcome) (reqs : list request) :
  (forall i req, exists r, f i req = Responded r) ->
  exists rs, imap f reqs = map Responded rs.
Proof.
  revert f. induction reqs as [|req reqs IH]; intros f Hf.
  - exists []. reflexivity.
  - destruct (Hf O req) as (r & Hr).
    destruct (IH (f ∘ S)) as (rs & Hrs).
    { intros i req'. apply Hf. }
    exists (r :: rs). cbn [imap map]. rewrite Hr, Hrs. reflexivity.
Qed.

Lemma probe_all_run (net : network) (route : string) (s : state) :
  run net (probe_all route) s =
    match broadcast_requests route (load_balancer s) with
    | [] => {| final := s; returned := Ok (Response 200); trace := [] |}
    | reqs =>
        {| final := s;
           returned :=
             result_bind (responses_of (imap (net 0%nat) reqs))
               (fun _ => Ok (Response 200));
           trace := [(s, reqs)] |}
    end.
Proof.
  unfold run, probe_all, get_lb. unfold bind, get_state, ret.
  cbn [coro_bind]. fold (broadcast_requests route (load_balancer s)).
  destruct (broadcast_requests route (load_balancer s)) as [|req reqs];
    [reflexivity|].
  unfold await_each_completed. unfold bind, await, ret.
  cbn [coro_bind run_from].
  destruct (responses_of (imap (net 0%nat) (req :: reqs))); reflexivity.
Qed.

Lemma probe_all_responds (net : network) (route : string) (s : state) :
  always_responds net ->
  final (run net (probe_all route) s) = s /\
  returned (run net (probe_all route) s) = Ok (Response 200).
Proof.
  intros Hnet. rewrite probe_all_run.
  destruct (broadcast_requests route (load_balancer s)) as [|req reqs];
    [split; reflexivity|].
  cbv beta iota zeta.
  destruct (imap_all_responded (net 0%nat) (req :: reqs)) as (rs & ->);
    [intros i req'; apply Hnet|].
  rewrite responses_of_Responded. split; reflexivity.
Qed.

(** X14.  [/health_generate] and [/flush_cache] look at no answer: as long
    as every backend responds, with whatever status, they return 200 and
    leave the state alone. *)
Theorem probes_ignore_status (net : network) (s : state) :
  always_responds net ->
  final (run net health_generate s) = s /\
  returned (run net health_generate s) = Ok (Response 200) /\
  final (run net flush_cache s) = s /\
  returned (run net flush_cache s) = Ok (Response 200).
Proof.
  intros Hnet.
  destruct (probe_all_responds net "health_generate" s Hnet) as (H1 & H2).
  destruct (probe_all_responds net "flush_cache" s Hnet) as (H3 & H4).
  repeat split; assumption.
Qed.

Lemma always_responds_status_net (code : Z) : always_responds (status_net code).
Proof. intros n i req. eexists. reflexivity. Qed.

Lemma probes_ignore_status_witness :
  returned (run (status_net 500) health_generate small_state)
    = Ok (Response 200).
Proof.
  apply (probes_ignore_status (status_net 500) small_state
           (always_responds_status_net 500)).
Defined.



(** ** Collecting the server infos *)

Lemma session_get_run (net : network) (n : nat) (target : string) (s : state) :
  run_from net n (session_get target s) =
    {| final := s;
       returned :=
         match net n O (GET target) with
         | Responded r => Ok r
         | Failed msg => Raise (ClientError msg)
         end;
       trace := [(s, [GET target])] |}.
Proof.
  unfold session_get. unfold bind, await, ret, raise.
  cbn [coro_bind run_from imap].
  destruct (net n O (GET target)); reflexivity.
Qed.

Lemma run_from_bind_M {A B} (net : network) (m : M A) (f : A -> M B)
    (n : nat) (s : state) :
  run_from net n (bind m f s) =
    match returned (run_from net n (m s)) with
    | Ok a =>
        let rr := run_from net (n + length (trace (run_from net n (m s))))
                    (f a (final (run_from net n (m s)))) in
        {| final := final rr; returned := returned rr;
           trace := (trace (run_from net n (m s)) ++ trace rr)%list |}
    | Raise e =>
        {| final := final (run_from net n (m s)); returned := Raise e;
           trace := trace (run_from net n (m s)) |}
    end.
Proof. unfold bind. apply run_from_bind. Qed.

Definition info_suspensions (s : state) (servers : list string)
  : list (state * list request) :=
  map (fun server => (s, [GET (server ++ "/get_server_info")])) servers.

Lemma info_suspensions_requests (s : state) (servers : list string) :
  concat (map snd (info_suspensions s servers)) = info_requests servers.
Proof.
  induction servers as [|server servers IH]; [reflexivity|].
  cbn. f_equal. exact IH.
Qed.

Lemma collect_run_ok (net : network) (servers : list string) :
  forall (n : nat) (s : state),
    all_info_ok net n servers ->
    run_from net n (collect_server_infos servers s) =
      {| final := s; returned := Ok (infos_from net n servers);
         trace := info_suspensions s servers |}.
Proof.
  induction servers as [|server servers IH]; intros n s Hok; [reflexivity|].
  destruct Hok as ((r & v & Hnet & Hjson) & Hrest).
  cbn [collect_server_infos].
  rewrite run_from_bind_M, session_get_run. cbn [final returned trace length].
  rewrite Hnet. unfold response_json. rewrite Hjson.
  replace (n + 1)%nat with (S n) by lia.
  rewrite (bind_Done _ _ _ _ _ (lift_Ok v s)).
  rewrite run_from_bind_M.
  rewrite (IH (S n) s Hrest). cbn [final returned trace length].
  unfold ret. cbn [run_from final returned trace infos_from info_suspensions map].
  unfold info_at. rewrite Hnet, Hjson. cbn [from_option id].
  rewrite app_nil_r. reflexivity.
Qed.

Lemma collect_run_fault (net : network) (servers : list string) :
  forall (n k : nat) (s : state) (server msg : string),
    servers !! k = Some server ->
    all_info_ok net n (take k servers) ->
    net (n + k)%nat O (GET (server ++ "/get_server_info")) = Failed msg ->
    run_from net n (collect_server_infos servers s) =
      {| final := s; returned := Raise (ClientError msg);
         trace := info_suspensions s (take (S k) servers) |}.
Proof.
  induction servers as [|server0 servers IH]; intros n k s server msg Hk Hok Hnet;
    [discriminate Hk|].
  cbn [collect_server_infos].
  rewrite run_from_bind_M, session_get_run. cbn [final returned trace length].
  destruct k as [|k].
  - injection Hk as ->. rewrite Nat.add_0_r in Hnet. rewrite Hnet. reflexivity.
  - cbn [take] in Hok. destruct Hok as ((r & v & Hnet0 & Hjson) & Hrest).
    rewrite Hnet0. unfold response_json. rewrite Hjson.
    replace (n + 1)%nat with (S n) by lia.
    rewrite (bind_Done _ _ _ _ _ (lift_Ok v s)).
    rewrite run_from_bind_M.
    rewrite (IH (S n) k s server msg Hk Hrest)
      by (rewrite <- Hnet; f_equal; lia).
    reflexivity.
Qed.

Lemma all_info_ok_app (net : network) (l1 l2 : list string) :
  forall n : nat,
    all_info_ok net n (l1 ++ l2)%list <->
    all_info_ok net n l1 /\ all_info_ok net (n + length l1) l2.
Proof.
  induction l1 as [|x l1 IH]; intros n; cbn [app all_info_ok length].
  - rewrite Nat.add_0_r. tauto.
  - rewrite IH. replace (n + S (length l1))%nat with (S n + length l1)%nat by lia.
    tauto.
Qed.

Lemma get_server_info_unfold (net : network) (s : state) :
  run net get_server_info s =
    run_from net 0
      (coro_bind (collect_server_infos (prefill_servers (load_balancer s)) s)
         (fun prefill_infos =>
            let* decode_infos :=
              collect_server_infos (decode_servers (load_balancer s)) in
            ret {[ "prefill" := PList prefill_infos;
                   "decode" := PList decode_infos ]})).
Proof. reflexivity. Qed.

(** X16.  [/get_server_info] asks the servers one at a time, the prefill
    pool first and each pool in its order.  When every server answers with a
    JSON body the result lists those bodies under ["prefill"] and
    ["decode"] in pool order, one per server. *)
Theorem get_server_info_in_pool_order (net : network) (s : state) :
  all_info_ok net 0
    (prefill_servers (load_balancer s) ++ decode_servers (load_balancer s))
    %list ->
  returned (run net get_server_info s) =
    Ok {[ "prefill" :=
            PList (infos_from net 0 (prefill_servers (load_balancer s)));
          "decode" :=
            PList (infos_from net
                     (length (prefill_servers (load_balancer s)))
                     (decode_servers (load_balancer s))) ]} /\
  trace (run net get_server_info s) =
    info_suspensions s
      (prefill_servers (load_balancer s) ++ decode_servers (load_balancer s))
      %list /\
  final (run net get_server_info s) = s.
Proof.
  intros Hok. apply all_info_ok_app in Hok as (Hp & Hd).
  cbn [Nat.add] in Hd.
  rewrite get_server_info_unfold, run_from_bind.
  rewrite (collect_run_ok net _ 0%nat s Hp). cbn [final returned trace].
  rewrite run_from_bind_M.
  assert (Hlen : length (info_suspensions s (prefill_servers (load_balancer s)))
                 = length (prefill_servers (load_balancer s)))
    by apply length_map.
  rewrite Hlen, Nat.add_0_l.
  rewrite (collect_run_ok net _ _ s Hd). cbn [final returned trace].
  unfold ret. cbn [run_from final returned trace].
  rewrite app_nil_r. unfold info_suspensions. rewrite map_app.
  repeat split.
Qed.

Lemma get_server_info_in_pool_order_witness :
  returned (run example_net get_server_info small_state) =
    Ok {[ "prefill" := PList [PStr "done"];
          "decode" := PList [PStr "done"; PStr "done"] ]}.
Proof.
  apply (get_server_info_in_pool_order example_net small_state).
  cbn. repeat split; eexists _, _; split; reflexivity.
Defined.

(** X17.  [/get_server_info] stops at the first server that cannot be
    reached: it raises that fault, and no server after that one is asked. *)
Theorem get_server_info_stops_at_fault
    (net : network) (s : state) (k : nat) (server msg : string) :
  (prefill_servers (load_balancer s) ++ decode_servers (load_balancer s))%list
    !! k = Some server ->
  all_info_ok net 0
    (take k (prefill_servers (load_balancer s)
               ++ decode_servers (load_balancer s))%list) ->
  net k O (GET (server ++ "/get_server_info")) = Failed msg ->
  returned (run net get_server_info s) = Raise (ClientError msg) /\
  requests_sent (run net get_server_info s) =
    info_requests
      (take (S k) (prefill_servers (load_balancer s)
                     ++ decode_servers (load_balancer s))%list).
Proof.
  intros Hk Hok Hnet.
  set (ps := prefill_servers (load_balancer s)) in *.
  set (ds := decode_servers (load_balancer s)) in *.
  unfold requests_sent. rewrite get_server_info_unfold, run_from_bind.
  fold ps. fold ds.
  destruct (Nat.lt_ge_cases k (length ps)) as [Hlt|Hge].
  - rewrite lookup_app_l in Hk by exact Hlt.
    rewrite take_app_le in Hok by lia.
    rewrite (collect_run_fault net ps 0%nat k s server msg Hk Hok Hnet).
    cbn [final returned trace].
    rewrite info_suspensions_requests.
    rewrite take_app_le by lia. split; reflexivity.
  - rewrite lookup_app_r in Hk by exact Hge.
    rewrite take_app_ge in Hok by exact Hge.
    apply all_info_ok_app in Hok as (Hp & Hd).
    cbn [Nat.add] in Hd.
    rewrite (collect_run_ok net ps 0%nat s Hp). cbn [final returned trace].
    rewrite run_from_bind_M.
    assert (Hlen : length (info_suspensions s ps) = length ps)
      by apply length_map.
    rewrite Hlen, Nat.add_0_l.
    rewrite (collect_run_fault net ds _ (k - length ps) s server msg Hk Hd)
      by (rewrite <- Hnet; f_equal; lia).
    cbn [final returned trace].
    split; [reflexivity|].
    rewrite map_app, concat_app, !info_suspensions_requests.
    rewrite take_app_ge by lia.
    unfold info_requests. rewrite map_app.
    replace (S k - length ps)%nat with (S (k - length ps)) by lia.
    reflexivity.
Qed.

Lemma get_server_info_stops_at_fault_witness :
  returned (run down_net get_server_info small_state)
    = Raise (ClientError "connection refused") /\
  length (requests_sent (run down_net get_server_info small_state)) = 1%nat.
Proof.
  destruct (get_server_info_stops_at_fault down_net small_state 0%nat
              "http://p0:30000" "connection refused" eq_refl I eq_refl)
    as (Hret & Hsent).
  split; [exact Hret|]. rewrite Hsent. reflexivity.
Defined.

(** ** Splitting the command line *)

Lemma split_on_nonempty (sep : ascii) (s : string) : split_on sep s <> [].
Proof.
  destruct s as [|c s]; cbn [split_on]; [discriminate|].
  destruct (Ascii.eqb c sep); [discriminate|].
  destruct (split_on sep s); discriminate.
Qed.

Lemma join_with_cons (sep : ascii) (c : ascii) (piece : string)
    (pieces : list string) :
  join_with sep (String c piece :: pieces) =
    String c (join_with sep (piece :: pieces)).
Proof. destruct pieces; reflexivity. Qed.

Lemma split_on_length (sep : ascii) (s : string) :
  length (split_on sep s) = S (count_char sep s).
Proof.
  induction s as [|c s IH]; [reflexivity|].
  cbn [split_on count_char].
  destruct (Ascii.eqb c sep).
  - cbn [length]. rewrite IH. reflexivity.
  - pose proof (split_on_nonempty sep s) as Hne.
    destruct (split_on sep s) as [|piece pieces]; [congruence|].
    cbn [length] in *. rewrite IH. reflexivity.
Qed.

(** X18.  Splitting at the commas loses nothing: joining the pieces with
    commas gives the string back.  There is one piece more than there are
    commas, so there is always at least one piece, and no piece contains a
    comma. *)
Theorem split_on_join (sep : ascii) (s : string) :
  join_with sep (split_on sep s) = s /\
  length (split_on sep s) = S (count_char sep s) /\
  Forall (fun piece => count_char sep piece = O) (split_on sep s).
Proof.
  induction s as [|c s (IHjoin & IHlen & IHall)].
  - repeat split. repeat constructor.
  - cbn [split_on count_char].
    pose proof (split_on_nonempty sep s) as Hne.
    destruct (Ascii.eqb_spec c sep) as [->|Hc].
    + split; [|split].
      * destruct (split_on sep s) as [|piece pieces]; [congruence|].
        change (join_with sep (EmptyString :: piece :: pieces))
          with (String sep (join_with sep (piece :: pieces))).
        rewrite IHjoin. reflexivity.
      * cbn [length]. rewrite IHlen. reflexivity.
      * constructor; [reflexivity|exact IHall].
    + destruct (split_on sep s) as [|piece pieces]; [congruence|].
      split; [|split].
      * rewrite join_with_cons, IHjoin. reflexivity.
      * cbn [length] in *. rewrite IHlen. reflexivity.
      * inversion IHall as [|? ? Hpiece Hrest]; subst.
        constructor; [|exact Hrest].
        cbn [count_char]. destruct (Ascii.eqb_spec c sep); [contradiction|].
        exact Hpiece.
Qed.

(** ** From the command line to the balancer *)

Lemma list_times_single {A} (x : A) (n : nat) : list_times [x] n = repeat x n.
Proof.
  unfold list_times. induction n as [|n IH]; [reflexivity|].
  cbn [repeat concat app]. rewrite IH. reflexivity.
Qed.

Lemma combine_repeat {A B} (l : list A) (y : B) :
  combine l (repeat y (length l)) = map (fun x => (x, y)) l.
Proof.
  induction l as [|x l IH]; [reflexivity|].
  cbn [length repeat combine map]. rewrite IH. reflexivity.
Qed.

(** X19.  A single bootstrap port on the command line is given to every
    prefill URL: there is one configuration per URL, in the order of the
    URLs, each with that port. *)
Theorem main_configs_single_port
    (py_int : string -> result Z)
    (prefill prefill_bootstrap_ports decode : string) (port : Z) :
  result_map py_int (split_on ","%char prefill_bootstrap_ports) = Ok [port] ->
  main_configs py_int prefill prefill_bootstrap_ports decode =
    Ok (map (fun u => {| url := u; bootstrap_port := port |})
            (split_on ","%char prefill),
        split_on ","%char decode).
Proof.
  intros Hports. unfold main_configs. rewrite Hports.
  cbn [result_bind length Nat.eqb].
  rewrite list_times_single, combine_repeat, map_map. reflexivity.
Qed.

Lemma main_configs_single_port_witness :
  main_configs example_int "http://p0:30000,http://p1:30000" "8998"
    "http://d0:30001" =
  Ok ([ {| url := "http://p0:30000"; bootstrap_port := 8998 |};
        {| url := "http://p1:30000"; bootstrap_port := 8998 |} ],
      [ "http://d0:30001" ]).
Proof.
  rewrite (main_configs_single_port example_int
             "http://p0:30000,http://p1:30000" "8998" "http://d0:30001" 8998
             eq_refl).
  reflexivity.
Defined.

(** X20.  Several bootstrap ports must be as many as the prefill URLs.  If
    they are, the [i]-th URL gets the [i]-th port; if they are not, start-up
    fails with [ValueError]. *)
Theorem main_configs_several_ports
    (py_int : string -> result Z)
    (prefill prefill_bootstrap_ports decode : string) (ports : list Z) :
  result_map py_int (split_on ","%char prefill_bootstrap_ports) = Ok ports ->
  length ports <> 1%nat ->
  (length ports = length (split_on ","%char prefill) ->
   exists configs,
     main_configs py_int prefill prefill_bootstrap_ports decode =
       Ok (configs, split_on ","%char decode) /\
     map url configs = split_on ","%char prefill /\
     map bootstrap_port configs = ports) /\
  (length ports <> length (split_on ","%char prefill) ->
   main_configs py_int prefill prefill_bootstrap_ports decode
     = Raise ValueError).
Proof.
  intros Hports Hne1. unfold main_configs. rewrite Hports.
  cbn [result_bind].
  destruct (Nat.eqb_spec (length ports) 1) as [H1|_]; [contradiction|].
  split; intros Hlen.
  - destruct (Nat.eqb_spec (length ports)
                (length (split_on ","%char prefill))) as [_|Hdiff];
      [|contradiction].
    cbn [negb result_bind]. eexists. split; [reflexivity|].
    rewrite !map_map.
    generalize dependent (split_on ","%char prefill). clear.
    induction ports as [|p ports IH]; intros urls Hlen;
      destruct urls as [|u urls]; try discriminate Hlen; [split; reflexivity|].
    cbn [length] in Hlen. injection Hlen as Hlen.
    destruct (IH urls Hlen) as (Hu & Hp).
    cbn [combine map]. rewrite Hu, Hp. split; reflexivity.
  - destruct (Nat.eqb_spec (length ports)
                (length (split_on ","%char prefill))) as [Heq|_];
      [contradiction|reflexivity].
Qed.

Lemma main_configs_several_ports_witness :
  main_configs example_int "http://p0:30000,http://p1:30000" "8998,8999,9000"
    "http://d0:30001" = Raise ValueError.
Proof.
  destruct (main_configs_several_ports example_int
              "http://p0:30000,http://p1:30000" "8998,8999,9000"
              "http://d0:30001" [8998; 8999; 9000] eq_refl) as (_ & Hbad);
    [discriminate|].
  apply Hbad. discriminate.
Defined.

Lemma result_map_length {A B} (f : A -> result B) (l : list A) (l' : list B) :
  result_map f l = Ok l' -> length l' = length l.
Proof.
  revert l'. induction l as [|x l IH]; intros l' H; cbn [result_map] in H.
  - injection H as <-. reflexivity.
  - destruct (f x) as [y|e]; cbn [result_bind] in H; [|discriminate H].
    destruct (result_map f l) as [ys|e]; cbn [result_bind] in H;
      [|discriminate H].
    injection H as <-. cbn [length]. rewrite (IH ys eq_refl). reflexivity.
Qed.

Lemma list_times_length {A} (l : list A) (n : nat) :
  length (list_times l n) = (n * length l)%nat.
Proof.
  unfold list_times. induction n as [|n IH]; [reflexivity|].
  cbn [repeat concat]. rewrite length_app, IH. reflexivity.
Qed.

Lemma main_configs_one_per_url
    (py_int : string -> result Z)
    (prefill prefill_bootstrap_ports decode : string)
    (configs : list PrefillConfig) (decode_addrs : list string) :
  main_configs py_int prefill prefill_bootstrap_ports decode
    = Ok (configs, decode_addrs) ->
  length configs = length (split_on ","%char prefill) /\
  decode_addrs = split_on ","%char decode.
Proof.
  unfold main_configs.
  destruct (result_map py_int (split_on ","%char prefill_bootstrap_ports))
    as [ports|e]; cbn [result_bind]; [|discriminate].
  destruct (Nat.eqb_spec (length ports) 1) as [H1|_].
  - cbn [result_bind]. intros H. injection H as <- <-. split; [|reflexivity].
    rewrite length_map, length_combine, list_times_length, H1. lia.
  - destruct (Nat.eqb_spec (length ports)
                (length (split_on ","%char prefill))) as [Heq|_];
      cbn [negb result_bind]; [|discriminate].
    intros H. injection H as <- <-. split; [|reflexivity].
    rewrite length_map, length_combine, Heq. lia.
Qed.

(** X21.  Whatever command line start-up accepts, the balancer it installs
    has a prefill server for every URL given, at least one, and at least one
    decode server, with the cursor on the first prefill server and both
    flags down; so from that balancer on, any number of calls of
    [select_pair] in a row all return. *)
Theorem started_balancer_always_selects
    (py_int : string -> result Z)
    (prefill prefill_bootstrap_ports decode : string) (lb : MiniLoadBalancer) :
  main py_int prefill prefill_bootstrap_ports decode = Ok lb ->
  length (prefill_configs lb) = S (count_char ","%char prefill) /\
  length (decode_servers lb) = S (count_char ","%char decode) /\
  round_robin_counter lb = 0 /\
  profiling lb = false /\ recording lb = false /\
  forall (entropy : nat -> Z) (N : nat) (h : list dict) (pos : nat),
    exists s' calls,
      select_pair_calls entropy N
        {| load_balancer := lb; heap := h; rng_pos := pos |}
        = Done s' (Ok calls) /\
      length calls = N.
Proof.
  unfold main.
  destruct (main_configs py_int prefill prefill_bootstrap_ports decode)
    as [[configs decode_addrs]|e] eqn:Hmain; cbn [result_bind]; [|discriminate].
  intros H. injection H as <-.
  destruct (main_configs_one_per_url _ _ _ _ _ _ Hmain) as (Hlen & ->).
  pose proof (split_on_length ","%char prefill) as Hp.
  pose proof (split_on_length ","%char decode) as Hd.
  cbn [init prefill_configs decode_servers round_robin_counter profiling
       recording].
  split; [congruence|]. split; [exact Hd|].
  split; [reflexivity|]. split; [reflexivity|]. split; [reflexivity|].
  intros entropy N h pos.
  destruct (select_pair_calls_run entropy N
              {| load_balancer := init configs (split_on ","%char decode);
                 heap := h; rng_pos := pos |})
    as (s' & calls & Hrun & Hcur & _ & _).
  { cbn. lia. }
  { cbn. intros Hnil. rewrite Hnil in Hd. discriminate Hd. }
  exists s', calls. split; [exact Hrun|].
  rewrite <- (length_map fst), Hcur. apply cursor_seq_length.
Qed.

Lemma started_balancer_always_selects_witness :
  exists lb,
    main example_int "http://p0:30000,http://p1:30000" "8998,8999"
      "http://d0:30001,http://d1:30001" = Ok lb /\
    length (prefill_configs lb) = 2%nat /\
    exists s' calls,
      select_pair_calls example_entropy 7
        {| load_balancer := lb; heap := []; rng_pos := 0 |}
        = Done s' (Ok calls) /\
      length calls = 7%nat.
Proof.
  eexists. split; [reflexivity|].
  destruct (started_balancer_always_selects example_int
              "http://p0:30000,http://p1:30000" "8998,8999"
              "http://d0:30001,http://d1:30001" _ eq_refl)
    as (Hlen & _ & _ & _ & _ & Hsel).
  split; [exact Hlen|]. apply Hsel.
Defined.

(** ** A non-streaming request from end to end *)




